(** * Report intake pipeline and matrix push messages of the Penguin
    Statistics backend: a shallow embedding and its properties.

    The development follows the layout of the sources:
    - [konst]: the drop-type vocabulary (internal/models/konst/dropType.go);
    - [protos]: the push-protocol messages (the proto3 schema);
    - [legacy]: [ReportService.VerifySingularReport]
      (internal/service/report.go);
    - [service]: the [Report] service: normalisation, temporal mitigation,
      queue commit, single and batch submission, recall.

    Go's [int] and [int64] are modelled by [Z]: the pipeline performs no
    arithmetic on them, and the merge of [reportutil] is modelled with the
    sum of integers.  Collaborators (item, stage and account lookups,
    JSON encoding, the NATS client, Redis, the report repository) are
    fields of an environment record: one run of a request sees one
    environment. *)

From stdpp Require Import gmap strings list fin_maps.
From Stdlib Require Import ZArith String Ascii DecimalString Lia.

Local Open Scope string_scope.
Local Open Scope Z_scope.
Local Open Scope list_scope.

(** ** Go strings: the functions of package [strings] the code calls *)

Module strings.

(** [strings.HasPrefix(s, prefix)] *)
Fixpoint HasPrefix (s prefix : string) : bool :=
  match prefix, s with
  | EmptyString, _ => true
  | String _ _, EmptyString => false
  | String p prefix', String c s' => Ascii.eqb c p && HasPrefix s' prefix'
  end.

(** [strings.HasSuffix(s, suffix)]: the last [len(suffix)] bytes of [s]
    are [suffix]. *)
Definition HasSuffix (s suffix : string) : bool :=
  let n := String.length s in
  let k := String.length suffix in
  (k <=? n)%nat && String.eqb (String.substring (n - k) k s) suffix.

(** [strings.Replace(s, old, new, 1)] for a non-empty [old]: the first
    occurrence of [old] is replaced, [s] is returned as it is when there
    is none. *)
Fixpoint ReplaceFirst (s old new : string) : string :=
  if HasPrefix s old then new ++ String.substring (String.length old) (String.length s - String.length old) s
  else match s with
       | EmptyString => EmptyString
       | String c s' => String c (ReplaceFirst s' old new)
       end.

End strings.

(** ** Errors *)

(** The two errors of [context.Context.Err]. *)
Inductive ctx_error := Canceled | DeadlineExceeded.

(** Error values.  Sentinels are constructors; [ErrWrapped] is an error
    carrying a cause, which [errors.Is] looks through. *)
Inductive error :=
| ErrNotFound                              (* pgerr.ErrNotFound *)
| ErrInvalidReq (msg : string)             (* pgerr.ErrInvalidReq.Msg(msg) *)
| ErrNatsTimeout                           (* errors.New("timeout waiting for NATS response") *)
| RedisNil                                 (* redis.Nil *)
| ErrContext (e : ctx_error)               (* ctx.Context().Err() *)
| ErrNats (msg : string)                   (* an error of the NATS client *)
| ErrExternal (msg : string)               (* any other error of a collaborator *)
| ErrWrapped (msg : string) (cause : error).

#[global] Instance ctx_error_eq_dec : EqDecision ctx_error.
Proof. solve_decision. Defined.

#[global] Instance error_eq_dec : EqDecision error.
Proof. solve_decision. Defined.

(** [errors.Is(err, target)]: [err] or one of its causes is [target]. *)
Fixpoint errors_Is (err target : error) : bool :=
  bool_decide (err = target) ||
  match err with
  | ErrWrapped _ cause => errors_Is cause target
  | _ => false
  end.

(** A Go result pair [(v, err)] with [err == nil] or not. *)
Inductive Result (A : Type) :=
| Ok (a : A)
| Err (e : error).
Arguments Ok {A} a.
Arguments Err {A} e.

Definition is_Ok {A} (r : Result A) : bool :=
  match r with Ok _ => true | Err _ => false end.

(** ** The drop-type vocabulary *)

Module konst.

(** [DropTypeMap] maps an API drop type to a database drop type. *)
Definition DropTypeMap : gmap string string :=
  <["REGULAR_DROP" := "REGULAR"]>
  (<["NORMAL_DROP" := "REGULAR"]>
  (<["SPECIAL_DROP" := "SPECIAL"]>
  (<["EXTRA_DROP" := "EXTRA"]> ∅))).

Definition DropTypeMapKeys : list string :=
  ["NORMAL_DROP"; "SPECIAL_DROP"; "EXTRA_DROP"].

(** Go's [m[k]] on a [map[string]string]: the zero value when [k] is
    absent. *)
Definition index (m : gmap string string) (k : string) : string :=
  default "" (m !! k).

(** Go's [v, have := m[k]]. *)
Definition index_ok (m : gmap string string) (k : string) : string * bool :=
  match m !! k with
  | Some v => (v, true)
  | None => ("", false)
  end.

End konst.

(** ** Data model (package [types]) *)

(** A drop as submitted: API drop type, external (Ark) item id, quantity. *)
Module ArkDrop.
Record t := mk { DropType : string; ItemID : string; Quantity : Z }.
End ArkDrop.

(** A normalised drop: database drop type, internal item id, quantity. *)
Module Drop.
Record t := mk { DropType : string; ItemID : Z; Quantity : Z }.
End Drop.

Module Item.
Record t := mk { ItemID : Z; ArkItemID : string }.
End Item.

Module Account.
Record t := mk { AccountID : Z; PenguinID : string }.
End Account.

(** [null.String]: a string that may be absent. *)
Module NullString.
Record t := mk { String : string; Valid : bool }.
End NullString.

(** Modelled from the spec: [types.ReportRequestMetadata] is declared in
    a file that is not modelled here; the spec calls it a metadata map. *)
Definition ReportRequestMetadata : Type := list (string * string).

(** [StageID] is the field of the embedded [FragmentStageID], copied by
    value when a report is built. *)
Module ReportTaskSingleReport.
Record t := mk {
  StageID : string;
  Drops : list Drop.t;
  Times : Z;
  Metadata : option ReportRequestMetadata
}.
End ReportTaskSingleReport.

(** [Reports] is a slice of pointers: [None] is the nil pointer. *)
Module ReportTask.
Record t := mk {
  TaskID : string;
  CreatedAt : Z;
  Server : string;
  Source : string;
  Version : string;
  Reports : list (option ReportTaskSingleReport.t);
  AccountID : Z;
  IP : string
}.
End ReportTask.

Module SingleReportRequest.
Record t := mk {
  Server : string;
  Source : string;
  Version : string;
  StageID : string;
  Drops : list ArkDrop.t;
  Metadata : option ReportRequestMetadata
}.
End SingleReportRequest.

Module BatchReportDrop.
Record t := mk {
  StageID : string;
  Drops : list ArkDrop.t;
  Metadata : ReportRequestMetadata
}.
End BatchReportDrop.

Module BatchReportRequest.
Record t := mk {
  Server : string;
  Source : string;
  Version : string;
  BatchDrops : list BatchReportDrop.t
}.
End BatchReportRequest.

Module SingleReportRecallRequest.
Record t := mk { ReportHash : string }.
End SingleReportRecallRequest.

(** ** The [Report] service *)

Module service.

(** [ErrReportNotFound = pgerr.ErrInvalidReq.Msg(...)] *)
Definition ErrReportNotFound : error :=
  ErrInvalidReq "report not existed or has already been recalled".

(** *** Environment and world *)

(** The future [PublishAsync] returns: when a value arrives on each of its
    two channels, in nanoseconds after the [select] starts to wait, if it
    ever does.  An error of the channel is an error of the NATS client. *)
Record PubAckFuture := {
  pub_Err : option (Z * string);
  pub_Ok : option Z
}.

(** What the collaborators answer during one request. *)
Record Env := {
  RequestID : string;                (* ctx.Locals(constant.ContextKeyRequestID).(string) *)
  ExtractIP : string;                (* util.ExtractIP(ctx) *)
  ExtraProcessTypeGachaBox : string; (* constant.ExtraProcessTypeGachaBox *)
  GetAccountFromRequest : Result Account.t;
  CreateAccountWithRandomPenguinId : Result Account.t;
  GetItemByArkId : string -> Result Item.t;
  GetStageExtraProcessTypeByArkId : string -> Result NullString.t;
  MergeDropsByDropTypeAndItemID : list ArkDrop.t -> list ArkDrop.t;
  AggregateGachaBoxDrops : ReportTaskSingleReport.t -> ReportTaskSingleReport.t;
  uniuri_NewLen : nat -> string;
  time_Now : nat -> Z;               (* the k-th reading of the clock, Unix nanoseconds *)
  json_Marshal : ReportTask.t -> Result string;
  PublishAsync : string -> string -> string + PubAckFuture;
                                     (* the message of the client's error, or the future *)
  ctx_Done : option (Z * ctx_error); (* when the request context ends, after the select starts *)
  select_tie : nat                   (* the runtime's choice among cases ready together *)
}.

(** What a request has done so far.  [committed] is a ghost log: it
    records each call of [commitReportTask] with the task it receives. *)
Record World := {
  warnings : list string;            (* log.Warn().Msgf(...) *)
  injected : list string;            (* pgid.Inject(ctx, id) *)
  committed : list (string * ReportTask.t);
  published : list (string * string);(* NatsJS.PublishAsync(subject, data) calls *)
  clock_reads : nat;                 (* calls of time.Now() *)
  waited : Z                         (* nanoseconds spent blocked in select *)
}.

Definition World0 : World :=
  {| warnings := []; injected := []; committed := []; published := [];
     clock_reads := 0; waited := 0 |}.

(** A computation reads and extends the world and returns a value or an
    error; an error ends the enclosing function ([return ..., err]). *)
Definition M (A : Type) : Type := World -> Result A * World.

#[global] Instance M_ret : MRet M := fun A a w => (Ok a, w).

#[global] Instance M_bind : MBind M := fun A B f m w =>
  match m w with
  | (Ok a, w') => f a w'
  | (Err e, w') => (Err e, w')
  end.

Definition throw {A} (err : error) : M A := fun w => (Err err, w).

Definition log_Warn (msg : string) : M unit := fun w =>
  (Ok tt, {| warnings := warnings w ++ [msg]; injected := injected w;
             committed := committed w; published := published w;
             clock_reads := clock_reads w; waited := waited w |}).

Definition pgid_Inject (penguinId : string) : M unit := fun w =>
  (Ok tt, {| warnings := warnings w; injected := injected w ++ [penguinId];
             committed := committed w; published := published w;
             clock_reads := clock_reads w; waited := waited w |}).

Definition ghost_commit (subject : string) (task : ReportTask.t) : M unit := fun w =>
  (Ok tt, {| warnings := warnings w; injected := injected w;
             committed := committed w ++ [(subject, task)]; published := published w;
             clock_reads := clock_reads w; waited := waited w |}).

(** [time.Now()], in Unix nanoseconds. *)
Definition time_Now_UnixNano (env : Env) : M Z := fun w =>
  (Ok (time_Now env (clock_reads w)),
   {| warnings := warnings w; injected := injected w;
      committed := committed w; published := published w;
      clock_reads := S (clock_reads w); waited := waited w |}).

(** [s.NatsJS.PublishAsync(subject, data)]: the call is recorded whatever
    the client answers; its error is an error of the NATS client. *)
Definition NatsJS_PublishAsync (env : Env) (subject data : string) : M PubAckFuture := fun w =>
  (match PublishAsync env subject data with
   | inl msg => Err (ErrNats msg)
   | inr pub => Ok pub
   end,
   {| warnings := warnings w; injected := injected w;
      committed := committed w; published := published w ++ [(subject, data)];
      clock_reads := clock_reads w; waited := waited w |}).

Definition block (ns : Z) : M unit := fun w =>
  (Ok tt, {| warnings := warnings w; injected := injected w;
             committed := committed w; published := published w;
             clock_reads := clock_reads w; waited := waited w + ns |}).

(** *** The [select] of [commitReportTask] *)

(** The case a [select] runs, with what it receives: the message of the
    error on [pub.Err()], the error of the ended context. *)
Inductive SelectCase :=
| CasePubErr (msg : string)    (* case err := <-pub.Err() *)
| CasePubOk                    (* case <-pub.Ok() *)
| CaseCtxDone (e : ctx_error)  (* case <-ctx.Context().Done() *)
| CaseTimeAfter.               (* case <-time.After(time.Second * 10) *)

Definition Second : Z := 1000000000.

(** The cases with the instant each becomes ready, in the order of the
    source; a channel that never delivers contributes no case. *)
Definition select_cases (env : Env) (pub : PubAckFuture) : list (Z * SelectCase) :=
  match pub_Err pub with
  | Some (t, msg) => [(Z.max 0 t, CasePubErr msg)]
  | None => []
  end ++
  match pub_Ok pub with
  | Some t => [(Z.max 0 t, CasePubOk)]
  | None => []
  end ++
  match ctx_Done env with
  | Some (t, e) => [(Z.max 0 t, CaseCtxDone e)]
  | None => []
  end ++
  [(Second * 10, CaseTimeAfter)].

(** The earliest instant at which some case is ready. *)
Definition earliest (cases : list (Z * SelectCase)) : Z :=
  foldr (fun c t => Z.min c.1 t) (Second * 10) cases.

(** A [select] blocks until a case is ready and runs one of the cases
    ready at that instant, any of them when there are several. *)
Definition select (env : Env) (pub : PubAckFuture) : M SelectCase :=
  let cases := select_cases env pub in
  let t := earliest cases in
  let ready := filter (fun c => c.1 = t) cases in
  block t ;;
  mret (default CaseTimeAfter (snd <$> ready !! (select_tie env mod List.length ready)%nat)).

(** *** The pipeline *)

Definition pipelineAccount (env : Env) : M Z :=
  match GetAccountFromRequest env with
  | Err _ =>
      match CreateAccountWithRandomPenguinId env with
      | Err err => throw err
      | Ok createdAccount =>
          pgid_Inject (Account.PenguinID createdAccount) ;;
          mret (Account.AccountID createdAccount)
      end
  | Ok account => mret (Account.AccountID account)
  end.

(** The loop of [pipelineMergeDropsAndMapDropTypes] over the merged drops;
    [convertedDrops] is the slice built so far. *)
Fixpoint convertDrops (env : Env) (drops : list ArkDrop.t) (convertedDrops : list Drop.t)
  : M (list Drop.t) :=
  match drops with
  | [] => mret convertedDrops
  | drop :: rest =>
      match GetItemByArkId env (ArkDrop.ItemID drop) with
      | Err err =>
          if negb (errors_Is err ErrNotFound) then throw err
          else
            log_Warn ("failed to get item by ark id '" ++ ArkDrop.ItemID drop ++ "', will ignore it") ;;
            convertDrops env rest convertedDrops
      | Ok item =>
          convertDrops env rest
            (convertedDrops ++
             [Drop.mk (konst.index konst.DropTypeMap (ArkDrop.DropType drop))
                      (Item.ItemID item)
                      (ArkDrop.Quantity drop)])
      end
  end.

Definition pipelineMergeDropsAndMapDropTypes (env : Env) (drops : list ArkDrop.t)
  : M (list Drop.t) :=
  let drops := MergeDropsByDropTypeAndItemID env drops in
  convertDrops env drops [].

Definition pipelineTaskId (env : Env) : string :=
  RequestID env ++ "-" ++ uniuri_NewLen env 16.

Definition pipelineAggregateGachaboxDrops (env : Env) (singleReport : ReportTaskSingleReport.t)
  : M ReportTaskSingleReport.t :=
  match GetStageExtraProcessTypeByArkId env (ReportTaskSingleReport.StageID singleReport) with
  | Err err => throw err
  | Ok category =>
      if NullString.Valid category
         && String.eqb (NullString.String category) (ExtraProcessTypeGachaBox env)
      then mret (AggregateGachaBoxDrops env singleReport)
      else mret singleReport
  end.

Definition set_StageID (stageId : string) (req : SingleReportRequest.t) : SingleReportRequest.t :=
  SingleReportRequest.mk
    (SingleReportRequest.Server req) (SingleReportRequest.Source req)
    (SingleReportRequest.Version req) stageId
    (SingleReportRequest.Drops req) (SingleReportRequest.Metadata req).

(** [pipelineMaaAct18d3TemporaryMitigation] mutates [req]; the request
    after the call is returned. *)
Definition pipelineMaaAct18d3TemporaryMitigation (env : Env) (req : SingleReportRequest.t)
  : M SingleReportRequest.t :=
  now ← time_Now_UnixNano env;
  if (now / 1000000 <? 1654718400000)
     && String.eqb (SingleReportRequest.Source req) "MeoAssistant"
  then
    if strings.HasPrefix (SingleReportRequest.StageID req) "act18d3_"
       && strings.HasSuffix (SingleReportRequest.StageID req) "_perm"
    then mret (set_StageID (strings.ReplaceFirst (SingleReportRequest.StageID req) "_perm" "_rep") req)
    else mret req
  else mret req.

Definition set_TaskID (taskId : string) (task : ReportTask.t) : ReportTask.t :=
  ReportTask.mk taskId
    (ReportTask.CreatedAt task) (ReportTask.Server task) (ReportTask.Source task)
    (ReportTask.Version task) (ReportTask.Reports task) (ReportTask.AccountID task)
    (ReportTask.IP task).

(** [commitReportTask]: [task.TaskID = taskId] is the update [set_TaskID];
    [ghost_commit] records the call and stands for no statement of the
    source. *)
Definition commitReportTask (env : Env) (subject : string) (task : ReportTask.t) : M string :=
  ghost_commit subject task ;;
  let taskId := pipelineTaskId env in
  let task := set_TaskID taskId task in
  match json_Marshal env task with
  | Err err => throw err
  | Ok reportTaskJSON =>
      pub ← NatsJS_PublishAsync env subject reportTaskJSON;
      c ← select env pub;
      match c with
      | CasePubErr msg => throw (ErrNats msg)
      | CasePubOk => mret taskId
      | CaseCtxDone e => throw (ErrContext e)
      | CaseTimeAfter => throw ErrNatsTimeout
      end
  end.

Definition PreprocessAndQueueSingularReport (env : Env) (req : SingleReportRequest.t) : M string :=
  accountId ← pipelineAccount env;
  drops ← pipelineMergeDropsAndMapDropTypes env (SingleReportRequest.Drops req);
  let singleReport :=
    ReportTaskSingleReport.mk (SingleReportRequest.StageID req) drops 1
                              (SingleReportRequest.Metadata req) in
  singleReport ← pipelineAggregateGachaboxDrops env singleReport;
  req ← pipelineMaaAct18d3TemporaryMitigation env req;
  now ← time_Now_UnixNano env;
  let reportTask :=
    ReportTask.mk "" (now / 1000)
      (SingleReportRequest.Server req) (SingleReportRequest.Source req)
      (SingleReportRequest.Version req)
      [Some singleReport] accountId (ExtractIP env) in
  commitReportTask env "REPORT.SINGLE" reportTask.

(** The loop of [PreprocessAndQueueBatchReport]: [i] is the index of the
    element at the head of [batchDrops], [reports] the slice made with
    [len(req.BatchDrops)] nil pointers and filled by index. *)
Fixpoint batchLoop (env : Env) (i : nat) (batchDrops : list BatchReportDrop.t)
    (reports : list (option ReportTaskSingleReport.t))
  : M (list (option ReportTaskSingleReport.t)) :=
  match batchDrops with
  | [] => mret reports
  | drop :: rest =>
      drops ← pipelineMergeDropsAndMapDropTypes env (BatchReportDrop.Drops drop);
      let metadata := BatchReportDrop.Metadata drop in
      let report :=
        ReportTaskSingleReport.mk (BatchReportDrop.StageID drop) drops 1 (Some metadata) in
      report ← pipelineAggregateGachaboxDrops env report;
      batchLoop env (S i) rest (<[i := Some report]> reports)
  end.

(** [CreatedAt] is not among the fields of the composite literal: it keeps
    the zero value. *)
Definition PreprocessAndQueueBatchReport (env : Env) (req : BatchReportRequest.t) : M string :=
  accountId ← pipelineAccount env;
  reports ← batchLoop env 0 (BatchReportRequest.BatchDrops req)
              (replicate (List.length (BatchReportRequest.BatchDrops req)) None);
  let reportTask :=
    ReportTask.mk "" 0
      (BatchReportRequest.Server req) (BatchReportRequest.Source req)
      (BatchReportRequest.Version req)
      reports accountId (ExtractIP env) in
  commitReportTask env "REPORT.BATCH" reportTask.

(** *** Recall *)

(** [strconv.Atoi]: an optional sign and decimal digits, within the range
    of a 64-bit [int]. *)
Module strconv.

Definition is_digit (c : ascii) : bool :=
  (48 <=? nat_of_ascii c)%nat && (nat_of_ascii c <=? 57)%nat.

Fixpoint digits (s : string) (acc : Z) : option Z :=
  match s with
  | EmptyString => Some acc
  | String c s' =>
      if is_digit c then digits s' (10 * acc + (Z.of_nat (nat_of_ascii c) - 48))
      else None
  end.

Definition ErrSyntax : error := ErrExternal "strconv.Atoi: invalid syntax".
Definition ErrRange : error := ErrExternal "strconv.Atoi: value out of range".

Definition unsigned (neg : bool) (s : string) : Result Z :=
  match s with
  | EmptyString => Err ErrSyntax
  | _ =>
      match digits s 0 with
      | None => Err ErrSyntax
      | Some n =>
          let v := if neg then - n else n in
          if (- 2 ^ 63 <=? v) && (v <? 2 ^ 63) then Ok v else Err ErrRange
      end
  end.

Definition Atoi (s : string) : Result Z :=
  match s with
  | EmptyString => Err ErrSyntax
  | String c s' =>
      if Ascii.eqb c "-" then unsigned true s'
      else if Ascii.eqb c "+" then unsigned false s'
      else unsigned false s
  end.

End strconv.

(** The reply of a Redis GET: [redis.StringCmd]. *)
Record StringCmd := {
  cmd_Err : option error;
  cmd_val : string
}.

(** [r.Int()] *)
Definition StringCmd_Int (r : StringCmd) : Result Z :=
  match cmd_Err r with
  | Some err => Err err
  | None => strconv.Atoi (cmd_val r)
  end.

(** [s.Redis.Get(ctx, key)] on a store holding [redis]: [transport] is the
    failure of the connection for this call, if any; a missing key is
    answered by [redis.Nil]. *)
Definition Redis_Get (transport : option error) (redis : gmap string string) (key : string)
  : StringCmd :=
  match transport with
  | Some err => {| cmd_Err := Some err; cmd_val := "" |}
  | None =>
      match redis !! key with
      | None => {| cmd_Err := Some RedisNil; cmd_val := "" |}
      | Some v => {| cmd_Err := None; cmd_val := v |}
      end
  end.

(** [s.Redis.Del(ctx, key)] on a store holding [redis]: [transport] is the
    failure of the connection for this call, if any, and the command then
    does not reach the store.  The reply ([redis.IntCmd]) carries the
    error; the store after the call comes with it. *)
Definition Redis_Del (transport : option error) (redis : gmap string string) (key : string)
  : option error * gmap string string :=
  match transport with
  | Some err => (Some err, redis)
  | None => (None, delete key redis)
  end.

Section Recall.

(** The persisted reports and [s.DropReportRepo.DeleteDropReport(ctx,
    reportId)], which answers an error or nil and leaves a database. *)
Variable DB : Type.
Variable DeleteDropReport : DB -> Z -> option error * DB.

(** The key-value store and the database. *)
Record Store := {
  redis : gmap string string;
  db : DB
}.

(** [RecallSingularReport] returns its error ([None] is nil) and the
    stores after the call.  [get] and [del] are the failures of the
    connection to Redis at the two commands.  The reply of [s.Redis.Del]
    is discarded by the code: whatever it carries, nil is returned. *)
Definition RecallSingularReport (get del : option error)
    (req : SingleReportRecallRequest.t) (s : Store) : option error * Store :=
  let r := Redis_Get get (redis s) (SingleReportRecallRequest.ReportHash req) in
  if match cmd_Err r with Some err => errors_Is err RedisNil | None => false end
  then (Some ErrReportNotFound, s)
  else
    match cmd_Err r with
    | Some err => (Some err, s)
    | None =>
        match StringCmd_Int r with
        | Err err => (Some err, s)
        | Ok reportId =>
            match DeleteDropReport (db s) reportId with
            | (Some err, db') => (Some err, {| redis := redis s; db := db' |})
            | (None, db') =>
                let reply := Redis_Del del (redis s) (SingleReportRecallRequest.ReportHash req) in
                (None, {| redis := reply.2; db := db' |})
            end
        end
    end.

End Recall.

End service.

(** ** Package [reportutil] *)

Module reportutil.

(** Modelled from the spec: the pair a drop is merged on, its drop type
    looked up in the vocabulary (Go's map index, the zero value for a type that is not a
    key) and its external item id. *)
Definition key (d : ArkDrop.t) : string * string :=
  (konst.index konst.DropTypeMap (ArkDrop.DropType d), ArkDrop.ItemID d).

Definition add_Quantity (q : Z) (d : ArkDrop.t) : ArkDrop.t :=
  ArkDrop.mk (ArkDrop.DropType d) (ArkDrop.ItemID d) (ArkDrop.Quantity d + q).

(** [d] is added to the merged drops: to the entry of its pair when there
    is one, as a new last entry when there is none. *)
Fixpoint add_drop (d : ArkDrop.t) (merged : list ArkDrop.t) : list ArkDrop.t :=
  match merged with
  | [] => [d]
  | m :: merged' =>
      if bool_decide (key m = key d) then add_Quantity (ArkDrop.Quantity d) m :: merged'
      else m :: add_drop d merged'
  end.

(** Modelled from the spec: [reportutil.MergeDropsByDropTypeAndItemID] is
    called by the pipeline and declared in a file that is not modelled
    here.  The spec: for each raw drop, look up its drop-type in the
    vocabulary map; sum quantities across entries sharing (drop-type,
    item-external-id); [(REGULAR_DROP, A, 1), (NORMAL_DROP, A, 2)] is
    normalized to the one drop [(REGULAR, internalIdOf A, 3)].  One entry
    per pair of looked-up drop type and external item id, in the order of
    first occurrence, with the sum of the quantities of the pair; the
    entry keeps the API drop type of the first drop of the pair, which the
    caller maps after the merge. *)
Definition MergeDropsByDropTypeAndItemID (drops : list ArkDrop.t) : list ArkDrop.t :=
  fold_left (fun merged d => add_drop d merged) drops [].

End reportutil.

(** ** [ReportService.VerifySingularReport] (internal/service/report.go) *)

Module legacy.

Record Drop := mkDrop { DropType : string; ItemID : string; Quantity : Z }.

Record SingularReportRequest := mkRequest {
  Server : string;
  StageID : string;
  Drops : list Drop
}.

(** [fmt]'s [%v] of a [[]string]. *)
Definition fmt_strings (l : list string) : string :=
  "[" ++ String.concat " " l ++ "]".

(** [fmt]'s [%d] of a length. *)
Definition fmt_int (n : nat) : string :=
  DecimalString.NilEmpty.string_of_uint (Nat.to_uint n).

(** [errors.ErrInvalidRequest.WithMessage(...)] of the two messages. *)
Definition ErrInvalidDropType (keys : list string) (got : string) : error :=
  ErrInvalidReq ("invalid drop type: expected one of " ++ fmt_strings keys
                 ++ ", but got `" ++ got ++ "`").

Definition ErrInvalidDropInfoCount (expected got : nat) : error :=
  ErrInvalidReq ("invalid drop info count: expected " ++ fmt_int expected
                 ++ ", but got " ++ fmt_int got).

(** The function given to [SelectT]: it returns the tuple of the drop, or
    the nil slice after it has assigned the captured [err]. *)
Definition selector (drop : Drop) (err : option error) : list string * option error :=
  let '(mappedDropType, have) := konst.index_ok konst.DropTypeMap (DropType drop) in
  if negb have
  then ([], Some (ErrInvalidDropType konst.DropTypeMapKeys (DropType drop)))
  else ([ItemID drop; mappedDropType], err).

(** [linq.From(report.Drops).SelectT(...).ToSlice(&tuples)]: every drop is
    visited in order. *)
Fixpoint select_tuples (drops : list Drop) (err : option error)
  : list (list string) * option error :=
  match drops with
  | [] => ([], err)
  | drop :: rest =>
      let '(tuple, err) := selector drop err in
      let '(tuples, err) := select_tuples rest err in
      (tuple :: tuples, err)
  end.

Section Verify.

(** [models.DropInfo], [s.DropInfoRepo.GetCurrentTimeRangeDropInfo] and
    [ctx.JSON] are collaborators. *)
Variable DropInfo : Type.
Variable GetCurrentTimeRangeDropInfo :
  string -> string -> list (list string) -> Result (list DropInfo).
Variable ctx_JSON : list DropInfo -> option error.

(** What a call does besides returning. *)
Inductive event :=
| QueryDropInfo (server stageId : string) (tuples : list (list string))
| WriteJSON (body : list DropInfo).

Definition VerifySingularReport (report : SingularReportRequest)
  : option error * list event :=
  let '(tuples, err) := select_tuples (Drops report) None in
  match err with
  | Some err => (Some err, [])
  | None =>
      let query := QueryDropInfo (Server report) (StageID report) tuples in
      match GetCurrentTimeRangeDropInfo (Server report) (StageID report) tuples with
      | Err err => (Some err, [query])
      | Ok expectDropInfos =>
          if negb (List.length expectDropInfos =? List.length (Drops report))%nat
          then (Some (ErrInvalidDropInfoCount (List.length (Drops report))
                                              (List.length expectDropInfos)),
                [query])
          else (ctx_JSON expectDropInfos, [query; WriteJSON expectDropInfos])
      end
  end.

End Verify.

End legacy.

(** ** The push-protocol messages (proto3 schema) *)

Module protos.

Inductive MessageType :=
| UNKNOWN
| PING
| PONG
| MATRIX_UPDATE_MESSAGE
| MATRIX_UPDATE_SUBSCRIBE_REQ
| MATRIX_UPDATE_SUBSCRIBE_RESP.

Definition MessageType_number (t : MessageType) : Z :=
  match t with
  | UNKNOWN => 0
  | PING => 1
  | PONG => 2
  | MATRIX_UPDATE_MESSAGE => 256
  | MATRIX_UPDATE_SUBSCRIBE_REQ => 4096
  | MATRIX_UPDATE_SUBSCRIBE_RESP => 4097
  end.

Record Header := { type : MessageType }.

(** [oneof { int32 stage_id; int32 item_id }], which the schema declares
    in [Element] and [Segment] (fields 1 and 2) and in
    [MatrixUpdateSubscribeReq] (fields 3 and 4).  A oneof holds the member
    that is set; [None] in a message is the oneof with no member set. *)
Inductive oneof_id :=
| stage_id (v : Z)
| item_id (v : Z).

Record Element := {
  id : option oneof_id;
  amount : Z
}.

Record Segment := {
  bucket : option oneof_id;
  elements : list Element
}.

Record MatrixUpdateMessage := {
  header : option Header;
  segments : list Segment
}.


(** Whether each member of a oneof is populated, and how many are. *)
Definition has_stage_id (o : option oneof_id) : bool :=
  match o with Some (stage_id _) => true | _ => false end.

Definition has_item_id (o : option oneof_id) : bool :=
  match o with Some (item_id _) => true | _ => false end.


(** The generated getters: the zero value when the member is not set. *)
Definition GetStageId (o : option oneof_id) : Z :=
  match o with Some (stage_id v) => v | _ => 0 end.

Definition GetItemId (o : option oneof_id) : Z :=
  match o with Some (item_id v) => v | _ => 0 end.







End protos.

(** * Specification vocabulary *)

Import service.

(** ** Worlds *)

(** The world after the messages [msgs] have been logged as warnings. *)
Definition add_warnings (msgs : list string) (w : World) : World :=
  {| warnings := warnings w ++ msgs; injected := injected w;
     committed := committed w; published := published w;
     clock_reads := clock_reads w; waited := waited w |}.

(** The world after one more reading of the clock. *)
Definition tick (w : World) : World :=
  {| warnings := warnings w; injected := injected w;
     committed := committed w; published := published w;
     clock_reads := S (clock_reads w); waited := waited w |}.

(** Nothing was handed to the committer, published or read off the clock
    between [w] and [w']. *)
Definition same_queue (w w' : World) : Prop :=
  committed w' = committed w
  ∧ published w' = published w
  ∧ clock_reads w' = clock_reads w
  ∧ waited w' = waited w.

(** ** Item lookups *)

(** The warning logged for a drop whose item is not found. *)
Definition item_warning (d : ArkDrop.t) : string :=
  "failed to get item by ark id '" ++ ArkDrop.ItemID d ++ "', will ignore it".

(** The three answers of the item lookup for a drop: an error that is
    not not-found, not-found, an item. *)
Definition lookup_fatal (env : Env) (d : ArkDrop.t) : option error :=
  match GetItemByArkId env (ArkDrop.ItemID d) with
  | Err err => if errors_Is err ErrNotFound then None else Some err
  | Ok _ => None
  end.

Definition lookup_missing (env : Env) (d : ArkDrop.t) : bool :=
  match GetItemByArkId env (ArkDrop.ItemID d) with
  | Err err => errors_Is err ErrNotFound
  | Ok _ => false
  end.

Definition normalized (env : Env) (d : ArkDrop.t) : option Drop.t :=
  match GetItemByArkId env (ArkDrop.ItemID d) with
  | Err _ => None
  | Ok item =>
      Some (Drop.mk (konst.index konst.DropTypeMap (ArkDrop.DropType d))
                    (Item.ItemID item) (ArkDrop.Quantity d))
  end.

(** ** Merged pairs *)

(** The pairs of a list of drops (looked-up drop type, external item id),
    in order. *)
Definition keys (drops : list ArkDrop.t) : list (string * string) :=
  reportutil.key <$> drops.

(** The sum of the quantities submitted for the pair [k]. *)
Definition total (k : string * string) (drops : list ArkDrop.t) : Z :=
  foldr (λ d s, if decide (reportutil.key d = k) then ArkDrop.Quantity d + s else s) 0 drops.





(** ** Batch elements *)

(** An element of a batch fails: its drops fail normalization, or the
    gachabox aggregation of a report of its stage fails. *)
Definition element_fails (env : Env) (drop : BatchReportDrop.t) : Prop :=
  (∃ w err,
     (pipelineMergeDropsAndMapDropTypes env (BatchReportDrop.Drops drop) w).1 = Err err)
  ∨ (∃ report w err,
       ReportTaskSingleReport.StageID report = BatchReportDrop.StageID drop
       ∧ (pipelineAggregateGachaboxDrops env report w).1 = Err err).

(** ** The mitigated stage ids *)

(** The stage ids of the form [act18d3_0<digit>_perm]. *)
Definition decimal_digits : list ascii :=
  ["0"; "1"; "2"; "3"; "4"; "5"; "6"; "7"; "8"; "9"]%char.

Definition act18d3_perm_pattern (stageId : string) : bool :=
  existsb (λ digit, String.eqb stageId ("act18d3_0" ++ String digit "_perm")) decimal_digits.

(** The condition under which the code rewrites the stage id. *)
Definition mitigation_applies (now : Z) (req : SingleReportRequest.t) : bool :=
  (now / 1000000 <? 1654718400000)
  && String.eqb (SingleReportRequest.Source req) "MeoAssistant"
  && (strings.HasPrefix (SingleReportRequest.StageID req) "act18d3_"
      && strings.HasSuffix (SingleReportRequest.StageID req) "_perm").

(** ** Outcomes of a commit *)



(** ** Members of a oneof *)


(** ** Environments and inputs to run the code on *)

(** Item [A] is item 7 of the catalogue, the lookup of [B] fails, any other
    item is not found; stage [broken] cannot be looked up, no stage is a
    gachabox; the publish is acknowledged after 5 ns. *)
Definition example_env : Env := {|
  RequestID := "req-1";
  ExtractIP := "192.0.2.1";
  ExtraProcessTypeGachaBox := "GACHABOX";
  GetAccountFromRequest := Ok (Account.mk 1 "penguin-1");
  CreateAccountWithRandomPenguinId := Ok (Account.mk 2 "penguin-2");
  GetItemByArkId := λ arkId,
    if String.eqb arkId "A" then Ok (Item.mk 7 "A")
    else if String.eqb arkId "B" then Err (ErrExternal "item lookup failed")
    else Err ErrNotFound;
  GetStageExtraProcessTypeByArkId := λ stageId,
    if String.eqb stageId "broken" then Err (ErrExternal "stage lookup failed")
    else Ok (NullString.mk "" false);
  MergeDropsByDropTypeAndItemID := reportutil.MergeDropsByDropTypeAndItemID;
  AggregateGachaBoxDrops := λ report, report;
  uniuri_NewLen := λ _, "0123456789abcdef";
  time_Now := λ _, 1654000000000000000;
  json_Marshal := λ _, Ok "{}";
  PublishAsync := λ _ _, inr {| pub_Err := None; pub_Ok := Some 5 |};
  ctx_Done := None;
  select_tie := 0
|}.


Definition with_PublishAsync (f : string → string → string + PubAckFuture)
    (done : option (Z * ctx_error)) (env : Env) : Env := {|
  RequestID := RequestID env;
  ExtractIP := ExtractIP env;
  ExtraProcessTypeGachaBox := ExtraProcessTypeGachaBox env;
  GetAccountFromRequest := GetAccountFromRequest env;
  CreateAccountWithRandomPenguinId := CreateAccountWithRandomPenguinId env;
  GetItemByArkId := GetItemByArkId env;
  GetStageExtraProcessTypeByArkId := GetStageExtraProcessTypeByArkId env;
  MergeDropsByDropTypeAndItemID := MergeDropsByDropTypeAndItemID env;
  AggregateGachaBoxDrops := AggregateGachaBoxDrops env;
  uniuri_NewLen := uniuri_NewLen env;
  time_Now := time_Now env;
  json_Marshal := json_Marshal env;
  PublishAsync := f;
  ctx_Done := done;
  select_tie := select_tie env
|}.

Definition example_task : ReportTask.t :=
  ReportTask.mk "" 0 "CN" "client" "v1" [] 1 "192.0.2.1".

(** A submission with one drop of item [A], of a type that is not in the
    vocabulary. *)
Definition unknown_type_request : SingleReportRequest.t :=
  SingleReportRequest.mk "CN" "client" "v1" "main_01-07"
    [ArkDrop.mk "FURNITURE" "A" 1] None.



(** A database of live report ids in which the deletion of a report that
    is not live is not an error (a DELETE that matches no row), and a
    store over it that maps one hash to report 42. *)
Definition example_idempotent_DeleteDropReport (live : list Z) (reportId : Z)
  : option error * list Z :=
  (None, filter (λ r, r ≠ reportId) live).

Definition example_idempotent_store : Store (list Z) :=
  {| redis := {["hash-1" := "42"]}; db := [41; 42] |}.

(** ** Vocabulary of the further properties *)

#[global] Instance SelectCase_eq_dec : EqDecision SelectCase.
Proof. solve_decision. Defined.

(** The penguin ids a request injects: the id of the account it creates
    when the account of the request is not found. *)
Definition created_ids (env : Env) : list string :=
  match GetAccountFromRequest env with
  | Ok _ => []
  | Err _ =>
      match CreateAccountWithRandomPenguinId env with
      | Ok createdAccount => [Account.PenguinID createdAccount]
      | Err _ => []
      end
  end.

(** The report the body of the batch loop builds for an element: its drops
    normalized, [Times] one, its metadata, then the gachabox aggregation. *)
Definition element_report (env : Env) (drop : BatchReportDrop.t)
  : Result ReportTaskSingleReport.t :=
  ((drops ← pipelineMergeDropsAndMapDropTypes env (BatchReportDrop.Drops drop);
    pipelineAggregateGachaboxDrops env
      (ReportTaskSingleReport.mk (BatchReportDrop.StageID drop) drops 1
         (Some (BatchReportDrop.Metadata drop)))) World0).1.

(** The result of [commitReportTask] when the [select] runs the case [c]. *)
Definition case_result (env : Env) (c : SelectCase) : Result string :=
  match c with
  | CasePubErr msg => Err (ErrNats msg)
  | CasePubOk => Ok (pipelineTaskId env)
  | CaseCtxDone e => Err (ErrContext e)
  | CaseTimeAfter => Err ErrNatsTimeout
  end.

(** The tuple [VerifySingularReport] builds for a drop of a known type. *)
Definition tuple_of (drop : legacy.Drop) : list string :=
  [legacy.ItemID drop; konst.index konst.DropTypeMap (legacy.DropType drop)].

(** The database drop types. *)
Definition internal_types : list string := ["REGULAR"; "SPECIAL"; "EXTRA"].

(** A repository that knows one drop info (numbered from zero) per tuple
    asked for, and a response that is always written. *)
Definition example_GetCurrentTimeRangeDropInfo (server stageId : string)
    (tuples : list (list string)) : Result (list nat) :=
  Ok (seq 0 (List.length tuples)).

Definition example_ctx_JSON (body : list nat) : option error := None.

Definition example_report : legacy.SingularReportRequest :=
  legacy.mkRequest "CN" "main_01-07"
    [legacy.mkDrop "NORMAL_DROP" "30012" 1; legacy.mkDrop "EXTRA_DROP" "30011" 2].

(** A database that fails the deletions it is asked for as many times as
    its state says, and a store over it. *)
Definition example_flaky_DeleteDropReport (failures : nat) (reportId : Z)
  : option error * nat :=
  match failures with
  | O => (None, O)
  | S n => (Some (ErrExternal "database is busy"), n)
  end.

Definition example_flaky_store : Store nat :=
  {| redis := {["hash-1" := "42"]}; db := 1%nat |}.

(** * Properties *)

(** ** Strings and numbers *)

Lemma HasPrefix_spec (s prefix : string) :
  strings.HasPrefix s prefix = true ↔ ∃ rest, s = (prefix ++ rest)%string.
Proof.
  revert s. induction prefix as [|p prefix IH]; intros s.
  - split; [by exists s | by destruct s].
  - destruct s as [|c s]; simpl.
    + split; [done | by intros [rest Hrest]].
    + rewrite andb_true_iff, Ascii.eqb_eq, IH. split.
      * intros [-> [rest ->]]. by exists rest.
      * intros [rest [= -> ->]]. split; [done | by exists rest].
Qed.

Example HasSuffix_examples :
  strings.HasSuffix "act18d3_05_perm" "_perm" = true
  ∧ strings.HasSuffix "act18d3_perm" "_perm" = true
  ∧ strings.HasSuffix "perm" "_perm" = false
  ∧ strings.HasSuffix "act18d3_05_perm_x" "_perm" = false.
Proof. by split_and!. Qed.

Example ReplaceFirst_examples :
  strings.ReplaceFirst "act18d3_05_perm" "_perm" "_rep" = "act18d3_05_rep"
  ∧ strings.ReplaceFirst "act18d3__perm_perm" "_perm" "_rep" = "act18d3__rep_perm"
  ∧ strings.ReplaceFirst "main_01-07" "_perm" "_rep" = "main_01-07".
Proof. by split_and!. Qed.

Example Atoi_examples :
  strconv.Atoi "42" = Ok 42
  ∧ strconv.Atoi "-7" = Ok (-7)
  ∧ strconv.Atoi "+7" = Ok 7
  ∧ strconv.Atoi "" = Err strconv.ErrSyntax
  ∧ strconv.Atoi "-" = Err strconv.ErrSyntax
  ∧ strconv.Atoi "4x" = Err strconv.ErrSyntax
  ∧ strconv.Atoi "9223372036854775807" = Ok (2 ^ 63 - 1)
  ∧ strconv.Atoi "9223372036854775808" = Err strconv.ErrRange
  ∧ strconv.Atoi "-9223372036854775808" = Ok (- 2 ^ 63).
Proof. by split_and!. Qed.

Example errors_Is_examples :
  errors_Is ErrNotFound ErrNotFound = true
  ∧ errors_Is (ErrWrapped "item" ErrNotFound) ErrNotFound = true
  ∧ errors_Is (ErrExternal "connection refused") ErrNotFound = false.
Proof. by split_and!. Qed.

(** ** The vocabulary *)

Lemma DropTypeMap_lookup (k : string) :
  konst.DropTypeMap !! k =
    (if decide ("REGULAR_DROP" = k) then Some "REGULAR"
     else if decide ("NORMAL_DROP" = k) then Some "REGULAR"
     else if decide ("SPECIAL_DROP" = k) then Some "SPECIAL"
     else if decide ("EXTRA_DROP" = k) then Some "EXTRA"
     else None).
Proof.
  unfold konst.DropTypeMap.
  rewrite !lookup_insert, lookup_empty.
  repeat case_decide; reflexivity.
Qed.

Lemma DropTypeMap_dom :
  dom konst.DropTypeMap =
    list_to_set ["REGULAR_DROP"; "NORMAL_DROP"; "SPECIAL_DROP"; "EXTRA_DROP"].
Proof. vm_compute. reflexivity. Qed.

Lemma DropTypeMapKeys_are_keys (k : string) :
  k ∈ konst.DropTypeMapKeys → is_Some (konst.DropTypeMap !! k).
Proof.
  unfold konst.DropTypeMapKeys. rewrite !elem_of_cons, elem_of_nil.
  intros [-> | [-> | [-> | []]]]; vm_compute; eauto.
Qed.

(** C8: the map is the one of the claim, and the list of keys holds three
    of its four keys: [REGULAR_DROP] is a key of [DropTypeMap] and is not
    in [DropTypeMapKeys]. *)
Theorem DropTypeMapKeys_omits_REGULAR_DROP :
  konst.DropTypeMap !! "REGULAR_DROP" = Some "REGULAR"
  ∧ konst.DropTypeMap !! "NORMAL_DROP" = Some "REGULAR"
  ∧ konst.DropTypeMap !! "SPECIAL_DROP" = Some "SPECIAL"
  ∧ konst.DropTypeMap !! "EXTRA_DROP" = Some "EXTRA"
  ∧ size konst.DropTypeMap = 4%nat
  ∧ ("REGULAR_DROP" ∉ konst.DropTypeMapKeys)
  ∧ List.length konst.DropTypeMapKeys = 3%nat.
Proof.
  repeat split; try (vm_compute; reflexivity).
  unfold konst.DropTypeMapKeys. rewrite !elem_of_cons, elem_of_nil.
  intros [H | [H | [H | []]]]; discriminate H.
Qed.

(** ** The Drop Normalizer *)

Lemma add_warnings_nil (w : World) : add_warnings [] w = w.
Proof. destruct w. unfold add_warnings. simpl. by rewrite app_nil_r. Qed.

Lemma add_warnings_cons (msg : string) (msgs : list string) (w : World) :
  add_warnings msgs (add_warnings [msg] w) = add_warnings (msg :: msgs) w.
Proof. unfold add_warnings. simpl. by rewrite <- app_assoc. Qed.

Lemma filter_missing_cons (env : Env) (d : ArkDrop.t) (drops : list ArkDrop.t) :
  filter (λ d, lookup_missing env d) (d :: drops) =
    if lookup_missing env d then d :: filter (λ d, lookup_missing env d) drops
    else filter (λ d, lookup_missing env d) drops.
Proof.
  rewrite filter_cons. destruct (lookup_missing env d); by case_decide.
Qed.

Lemma convertDrops_nonfatal (env : Env) (drops : list ArkDrop.t) :
  Forall (λ d, lookup_fatal env d = None) drops →
  ∀ acc w,
    convertDrops env drops acc w =
      (Ok (acc ++ omap (normalized env) drops),
       add_warnings (item_warning <$> filter (λ d, lookup_missing env d) drops) w).
Proof.
  induction 1 as [|d drops Hd _ IH]; intros acc w.
  - simpl. by rewrite app_nil_r, add_warnings_nil.
  - rewrite filter_missing_cons. simpl.
    unfold lookup_fatal in Hd. unfold lookup_missing, normalized.
    destruct (GetItemByArkId env (ArkDrop.ItemID d)) as [item|err].
    + rewrite IH. by rewrite <- app_assoc.
    + destruct (errors_Is err ErrNotFound); [|discriminate Hd].
      simpl. unfold mbind, M_bind, log_Warn. rewrite IH.
      by rewrite <- add_warnings_cons.
Qed.

Lemma convertDrops_fatal (env : Env) (pre : list ArkDrop.t) (d : ArkDrop.t)
    (post : list ArkDrop.t) (err : error) :
  Forall (λ d, lookup_fatal env d = None) pre →
  lookup_fatal env d = Some err →
  ∀ acc w,
    convertDrops env (pre ++ d :: post) acc w =
      (Err err,
       add_warnings (item_warning <$> filter (λ d, lookup_missing env d) pre) w).
Proof.
  intros Hpre Hd. induction Hpre as [|p pre Hp _ IH]; intros acc w.
  - simpl. rewrite add_warnings_nil. unfold lookup_fatal in Hd.
    destruct (GetItemByArkId env (ArkDrop.ItemID d)) as [item|e]; [discriminate Hd|].
    destruct (errors_Is e ErrNotFound); [discriminate Hd|].
    simpl. by injection Hd as ->.
  - rewrite filter_missing_cons. simpl.
    unfold lookup_fatal in Hp. unfold lookup_missing.
    destruct (GetItemByArkId env (ArkDrop.ItemID p)) as [item|e].
    + by rewrite IH.
    + destruct (errors_Is e ErrNotFound); [|discriminate Hp].
      simpl. unfold mbind, M_bind, log_Warn. rewrite IH.
      by rewrite <- add_warnings_cons.
Qed.

(** *** The merge *)

Section MergeFacts.

Implicit Types (d m : ArkDrop.t) (merged drops : list ArkDrop.t) (k : string * string).




Lemma total_app k drops drops' :
  total k (drops ++ drops') = total k drops + total k drops'.
Proof.
  induction drops as [|d drops IH]; simpl; [done |].
  case_decide; lia.
Qed.







End MergeFacts.

(** *** Lookups *)

Lemma first_fatal (env : Env) (drops : list ArkDrop.t) :
  Forall (λ d, lookup_fatal env d = None) drops
  ∨ ∃ pre d post err,
      drops = pre ++ d :: post
      ∧ Forall (λ d, lookup_fatal env d = None) pre
      ∧ lookup_fatal env d = Some err.
Proof.
  induction drops as [|d drops [IH | (pre & d' & post & err & -> & Hpre & Hd')]].
  - left. constructor.
  - destruct (lookup_fatal env d) as [err|] eqn:Hd.
    + right. exists [], d, drops, err. split_and!; [done | constructor | done].
    + left. by constructor.
  - destruct (lookup_fatal env d) as [err0|] eqn:Hd.
    + right. exists [], d, (pre ++ d' :: post), err0. split_and!; [done | constructor | done].
    + right. exists (d :: pre), d', post, err. split_and!; [done | by constructor | done].
Qed.



(** C9: the lookups run over the merged drops.  When none of them fails
    with an error other than not-found, the submission goes on: the drops
    whose item is not found are left out of the output and one warning is
    logged for each, in order.  The first lookup that fails with another
    error ends the normalisation with that error. *)
Theorem item_not_found_is_skipped_other_errors_are_fatal
    (env : Env) (drops : list ArkDrop.t) (w : World) :
  let merged := MergeDropsByDropTypeAndItemID env drops in
  (Forall (λ d, lookup_fatal env d = None) merged →
   pipelineMergeDropsAndMapDropTypes env drops w =
     (Ok (omap (normalized env) merged),
      add_warnings (item_warning <$> filter (λ d, lookup_missing env d) merged) w))
  ∧ (∀ pre d post err,
       merged = pre ++ d :: post →
       Forall (λ d, lookup_fatal env d = None) pre →
       lookup_fatal env d = Some err →
       pipelineMergeDropsAndMapDropTypes env drops w =
         (Err err,
          add_warnings (item_warning <$> filter (λ d, lookup_missing env d) pre) w)).
Proof.
  intros merged. unfold pipelineMergeDropsAndMapDropTypes. fold merged. split.
  - intros Hall. by rewrite convertDrops_nonfatal.
  - intros pre d post err -> Hpre Hd. by apply convertDrops_fatal.
Qed.

(** Witness of C9: item [C] is not found and is skipped with a warning;
    the lookup of [B] fails and fails the submission. *)
Lemma item_not_found_is_skipped_other_errors_are_fatal_witness :
  pipelineMergeDropsAndMapDropTypes example_env
    [ArkDrop.mk "NORMAL_DROP" "A" 1; ArkDrop.mk "NORMAL_DROP" "C" 2] World0
  = (Ok [Drop.mk "REGULAR" 7 1],
     add_warnings ["failed to get item by ark id 'C', will ignore it"] World0)
  ∧ pipelineMergeDropsAndMapDropTypes example_env
      [ArkDrop.mk "NORMAL_DROP" "C" 2; ArkDrop.mk "NORMAL_DROP" "B" 1;
       ArkDrop.mk "NORMAL_DROP" "A" 1] World0
    = (Err (ErrExternal "item lookup failed"),
       add_warnings ["failed to get item by ark id 'C', will ignore it"] World0).
Proof.
  split.
  - apply (proj1 (item_not_found_is_skipped_other_errors_are_fatal example_env
             [ArkDrop.mk "NORMAL_DROP" "A" 1; ArkDrop.mk "NORMAL_DROP" "C" 2] World0)).
    repeat constructor.
  - apply (proj2 (item_not_found_is_skipped_other_errors_are_fatal example_env
             [ArkDrop.mk "NORMAL_DROP" "C" 2; ArkDrop.mk "NORMAL_DROP" "B" 1;
              ArkDrop.mk "NORMAL_DROP" "A" 1] World0)
           [ArkDrop.mk "NORMAL_DROP" "C" 2] (ArkDrop.mk "NORMAL_DROP" "B" 1)
           [ArkDrop.mk "NORMAL_DROP" "A" 1] (ErrExternal "item lookup failed")).
    + reflexivity.
    + repeat constructor.
    + reflexivity.
Defined.





(** ** Batch submissions *)

Lemma same_queue_refl (w : World) : same_queue w w.
Proof. by repeat split. Qed.

Lemma same_queue_trans (w1 w2 w3 : World) :
  same_queue w1 w2 → same_queue w2 w3 → same_queue w1 w3.
Proof. unfold same_queue. intros (-> & -> & -> & ->) (-> & -> & -> & ->). done. Qed.

Lemma same_queue_add_warnings (msgs : list string) (w : World) :
  same_queue w (add_warnings msgs w).
Proof. by repeat split. Qed.

(** The result of the normalizer and the warnings it logs do not depend
    on the world it runs in. *)
Lemma normalize_run (env : Env) (drops : list ArkDrop.t) :
  ∃ r msgs, ∀ w,
    pipelineMergeDropsAndMapDropTypes env drops w = (r, add_warnings msgs w).
Proof.
  unfold pipelineMergeDropsAndMapDropTypes.
  destruct (first_fatal env (MergeDropsByDropTypeAndItemID env drops))
    as [Hall | (pre & d & post & err & -> & Hpre & Hd)].
  - eexists _, _. intros w. by apply convertDrops_nonfatal.
  - eexists _, _. intros w. by apply convertDrops_fatal.
Qed.

Lemma aggregate_run (env : Env) (report : ReportTaskSingleReport.t) :
  ∃ r, ∀ w, pipelineAggregateGachaboxDrops env report w = (r, w).
Proof.
  unfold pipelineAggregateGachaboxDrops.
  destruct (GetStageExtraProcessTypeByArkId env _) as [category|err].
  - destruct (_ && _); by eexists.
  - by eexists.
Qed.

Lemma account_same_queue (env : Env) (w : World) :
  same_queue w (pipelineAccount env w).2.
Proof.
  unfold pipelineAccount.
  destruct (GetAccountFromRequest env); [apply same_queue_refl |].
  destruct (CreateAccountWithRandomPenguinId env); by repeat split.
Qed.

Lemma batchLoop_same_queue (env : Env) (batchDrops : list BatchReportDrop.t) :
  ∀ i reports w, same_queue w (batchLoop env i batchDrops reports w).2.
Proof.
  induction batchDrops as [|drop rest IH]; intros i reports w; [apply same_queue_refl |].
  cbn [batchLoop]. unfold mbind, M_bind.
  destruct (normalize_run env (BatchReportDrop.Drops drop)) as (r & msgs & ->).
  destruct r as [drops|err]; [|apply same_queue_add_warnings].
  match goal with |- context [pipelineAggregateGachaboxDrops env ?rep] =>
    destruct (aggregate_run env rep) as (r & ->) end.
  destruct r as [report|err]; [|apply same_queue_add_warnings].
  eapply same_queue_trans; [apply same_queue_add_warnings | apply IH].
Qed.

Lemma aggregate_fails_by_stage (env : Env) (report report' : ReportTaskSingleReport.t)
    (w w' : World) (err : error) :
  ReportTaskSingleReport.StageID report = ReportTaskSingleReport.StageID report' →
  (pipelineAggregateGachaboxDrops env report w).1 = Err err →
  (pipelineAggregateGachaboxDrops env report' w').1 = Err err.
Proof.
  unfold pipelineAggregateGachaboxDrops. intros ->.
  destruct (GetStageExtraProcessTypeByArkId env _) as [category|e]; [|done].
  by destruct (_ && _).
Qed.

Lemma batchLoop_fails (env : Env) (batchDrops : list BatchReportDrop.t) :
  ∀ k drop, batchDrops !! k = Some drop → element_fails env drop →
  ∀ i reports w, ∃ err, (batchLoop env i batchDrops reports w).1 = Err err.
Proof.
  induction batchDrops as [|head rest IH]; intros k drop Hk Hfail i reports w; [done |].
  cbn [batchLoop]. unfold mbind, M_bind.
  destruct (normalize_run env (BatchReportDrop.Drops head)) as (r & msgs & Hrun).
  rewrite Hrun. destruct r as [drops|err]; [|by eexists].
  match goal with |- context [pipelineAggregateGachaboxDrops env ?rep] =>
    destruct (aggregate_run env rep) as (r & Hagg) end.
  rewrite Hagg. destruct r as [report|err]; [|by eexists].
  destruct k as [|k]; [|by eapply IH].
  injection Hk as ->. exfalso.
  destruct Hfail as [(w0 & err & Hn) | (report0 & w0 & err & Hstage & Ha)].
  - by rewrite Hrun in Hn.
  - eapply (aggregate_fails_by_stage env report0 _ w0 w) in Ha;
      [rewrite Hagg in Ha; done |].
    by rewrite Hstage.
Qed.

(** C5: when an element of a batch fails normalization or gachabox
    aggregation, the request returns an error, and nothing is handed to
    the committer or published for any element. *)
Theorem batch_is_all_or_nothing (env : Env) (req : BatchReportRequest.t)
    (k : nat) (drop : BatchReportDrop.t) (w : World) :
  BatchReportRequest.BatchDrops req !! k = Some drop →
  element_fails env drop →
  ∃ err,
    (PreprocessAndQueueBatchReport env req w).1 = Err err
    ∧ published (PreprocessAndQueueBatchReport env req w).2 = published w
    ∧ committed (PreprocessAndQueueBatchReport env req w).2 = committed w.
Proof.
  intros Hk Hfail. unfold PreprocessAndQueueBatchReport, mbind, M_bind.
  pose proof (account_same_queue env w) as Hacc.
  destruct (pipelineAccount env w) as [[accountId|err] w1]; simpl in Hacc.
  - pose proof (batchLoop_same_queue env (BatchReportRequest.BatchDrops req) 0
                  (replicate (List.length (BatchReportRequest.BatchDrops req)) None) w1) as Hloop.
    destruct (batchLoop_fails env _ k drop Hk Hfail 0%nat
                (replicate (List.length (BatchReportRequest.BatchDrops req)) None) w1)
      as [err Herr].
    destruct (batchLoop env 0 _ _ w1) as [[reports|err'] w2]; simpl in *; [done |].
    exists err'. destruct Hacc as (Hc & Hp & _), Hloop as (Hc' & Hp' & _).
    split_and!; [done | congruence | congruence].
  - exists err. destruct Hacc as (Hc & Hp & _). by split_and!.
Qed.

(** Witness of C5: the second element of the batch refers to item [B],
    whose lookup fails. *)
Lemma batch_is_all_or_nothing_witness :
  ∃ err,
    (PreprocessAndQueueBatchReport example_env
       (BatchReportRequest.mk "CN" "client" "v1"
          [BatchReportDrop.mk "main_01-07" [ArkDrop.mk "NORMAL_DROP" "A" 1] [];
           BatchReportDrop.mk "main_01-07" [ArkDrop.mk "NORMAL_DROP" "B" 1] []])
       World0).1 = Err err
    ∧ published (PreprocessAndQueueBatchReport example_env
       (BatchReportRequest.mk "CN" "client" "v1"
          [BatchReportDrop.mk "main_01-07" [ArkDrop.mk "NORMAL_DROP" "A" 1] [];
           BatchReportDrop.mk "main_01-07" [ArkDrop.mk "NORMAL_DROP" "B" 1] []])
       World0).2 = published World0
    ∧ committed (PreprocessAndQueueBatchReport example_env
       (BatchReportRequest.mk "CN" "client" "v1"
          [BatchReportDrop.mk "main_01-07" [ArkDrop.mk "NORMAL_DROP" "A" 1] [];
           BatchReportDrop.mk "main_01-07" [ArkDrop.mk "NORMAL_DROP" "B" 1] []])
       World0).2 = committed World0.
Proof.
  apply (batch_is_all_or_nothing example_env _ 1
           (BatchReportDrop.mk "main_01-07" [ArkDrop.mk "NORMAL_DROP" "B" 1] []) World0).
  - reflexivity.
  - left. exists World0, (ErrExternal "item lookup failed"). reflexivity.
Defined.

(** ** The creation timestamp of a task *)

Lemma select_committed (env : Env) (pub : PubAckFuture) (w : World) :
  committed (select env pub w).2 = committed w.
Proof. reflexivity. Qed.

Lemma commit_committed (env : Env) (subject : string) (task : ReportTask.t) (w : World) :
  committed (commitReportTask env subject task w).2 = committed w ++ [(subject, task)].
Proof.
  unfold commitReportTask, mbind, M_bind, ghost_commit. cbn beta iota zeta.
  destruct (json_Marshal env _) as [data|err]; [|reflexivity].
  unfold NatsJS_PublishAsync.
  destruct (PublishAsync env subject data) as [msg|pub]; [reflexivity |].
  unfold select, mbind, M_bind, block, mret, M_ret. cbn beta iota zeta.
  by destruct (default _ _).
Qed.

Lemma mitigation_run (env : Env) (req : SingleReportRequest.t) (w : World) :
  ∃ req', pipelineMaaAct18d3TemporaryMitigation env req w = (Ok req', tick w).
Proof.
  unfold pipelineMaaAct18d3TemporaryMitigation, mbind, M_bind, time_Now_UnixNano.
  cbn beta iota zeta. fold (tick w).
  destruct (_ && _); [destruct (_ && _) |]; by eexists.
Qed.

(** The report of an element does not depend on the world the body of the
    loop runs in. *)
Lemma element_report_run (env : Env) (elem : BatchReportDrop.t) (w : World) :
  ∃ msgs,
    (drops ← pipelineMergeDropsAndMapDropTypes env (BatchReportDrop.Drops elem);
     pipelineAggregateGachaboxDrops env
       (ReportTaskSingleReport.mk (BatchReportDrop.StageID elem) drops 1
          (Some (BatchReportDrop.Metadata elem)))) w
    = (element_report env elem, add_warnings msgs w).
Proof.
  unfold element_report, mbind, M_bind.
  destruct (normalize_run env (BatchReportDrop.Drops elem)) as (r & msgs & Hrun).
  rewrite !Hrun. exists msgs. destruct r as [drops|err]; [|done].
  match goal with |- context [pipelineAggregateGachaboxDrops env ?rep] =>
    destruct (aggregate_run env rep) as (r & Hr) end.
  by rewrite !Hr.
Qed.

(** The loop runs to its end when the report of every element is built. *)
Lemma batchLoop_succeeds (env : Env) (rest : list BatchReportDrop.t) :
  Forall (λ elem, is_Ok (element_report env elem)) rest →
  ∀ i reports w, is_Ok (batchLoop env i rest reports w).1.
Proof.
  induction 1 as [|elem rest Helem _ IH]; intros i reports w; [done |].
  cbn [batchLoop].
  destruct (element_report_run env elem w) as (msgs & Hrun).
  unfold mbind, M_bind in Hrun |- *.
  destruct (pipelineMergeDropsAndMapDropTypes env (BatchReportDrop.Drops elem) w)
    as [[drops|err] w1].
  - destruct (pipelineAggregateGachaboxDrops env _ w1) as [[report|err] w2]; [apply IH |].
    injection Hrun as Hrun _. by rewrite <- Hrun in Helem.
  - injection Hrun as Hrun _. by rewrite <- Hrun in Helem.
Qed.

(** C10: the task a batch submission hands to the committer has
    [CreatedAt] zero; the task a single-report submission hands to it has
    the clock reading taken when the task is assembled (the second of the
    request, in microseconds).  No other task is handed to the committer,
    and a task is handed whenever the steps before the commit succeed: in
    a batch, when the account is obtained and the report of every element
    is built; in a single submission, when the account is obtained, the
    drops are normalized and the stage is looked up.  A submission that
    returns a task id has handed one task. *)
Theorem task_creation_timestamp (env : Env) (w : World) :
  (∀ req, ∃ handed,
     committed (PreprocessAndQueueBatchReport env req w).2 = committed w ++ handed
     ∧ Forall (λ c, c.1 = "REPORT.BATCH" ∧ ReportTask.CreatedAt c.2 = 0) handed
     ∧ (is_Ok (PreprocessAndQueueBatchReport env req w).1 → List.length handed = 1%nat))
  ∧ (∀ req, ∃ handed,
       committed (PreprocessAndQueueSingularReport env req w).2 = committed w ++ handed
       ∧ Forall (λ c, c.1 = "REPORT.SINGLE"
                      ∧ ReportTask.CreatedAt c.2 = time_Now env (S (clock_reads w)) / 1000)
                handed
       ∧ (is_Ok (PreprocessAndQueueSingularReport env req w).1 → List.length handed = 1%nat))
  ∧ (∀ req accountId,
       (pipelineAccount env w).1 = Ok accountId →
       Forall (λ elem, is_Ok (element_report env elem)) (BatchReportRequest.BatchDrops req) →
       ∃ task,
         committed (PreprocessAndQueueBatchReport env req w).2
         = committed w ++ [("REPORT.BATCH", task)]
         ∧ ReportTask.CreatedAt task = 0)
  ∧ (∀ req accountId w0 drops category,
       (pipelineAccount env w).1 = Ok accountId →
       (pipelineMergeDropsAndMapDropTypes env (SingleReportRequest.Drops req) w0).1 = Ok drops →
       GetStageExtraProcessTypeByArkId env (SingleReportRequest.StageID req) = Ok category →
       ∃ task,
         committed (PreprocessAndQueueSingularReport env req w).2
         = committed w ++ [("REPORT.SINGLE", task)]
         ∧ ReportTask.CreatedAt task = time_Now env (S (clock_reads w)) / 1000).
Proof.
  split_and!.
  - intros req. unfold PreprocessAndQueueBatchReport, mbind, M_bind.
    pose proof (account_same_queue env w) as (Hc & _).
    destruct (pipelineAccount env w) as [[accountId|err] w1]; simpl in Hc;
      [|exists []; rewrite app_nil_r; by split_and!].
    pose proof (batchLoop_same_queue env (BatchReportRequest.BatchDrops req) 0
                  (replicate (List.length (BatchReportRequest.BatchDrops req)) None) w1)
      as (Hc' & _).
    destruct (batchLoop env 0 _ _ w1) as [[reports|err] w2]; simpl in Hc';
      [|exists []; rewrite app_nil_r; split_and!; [simpl; congruence | constructor | done]].
    eexists [_]. rewrite commit_committed, Hc', Hc.
    split_and!; [reflexivity | by repeat constructor | done].
  - intros req. unfold PreprocessAndQueueSingularReport, mbind, M_bind.
    pose proof (account_same_queue env w) as (Hc & _ & Hk & _).
    destruct (pipelineAccount env w) as [[accountId|err] w1]; simpl in Hc, Hk;
      [|exists []; rewrite app_nil_r; by split_and!].
    destruct (normalize_run env (SingleReportRequest.Drops req)) as (r & msgs & ->).
    destruct r as [drops|err];
      [|exists []; rewrite app_nil_r; by split_and!].
    match goal with |- context [pipelineAggregateGachaboxDrops env ?rep] =>
      destruct (aggregate_run env rep) as (r & ->) end.
    destruct r as [report|err];
      [|exists []; rewrite app_nil_r; by split_and!].
    destruct (mitigation_run env req (add_warnings msgs w1)) as (req' & ->).
    unfold time_Now_UnixNano. cbn beta iota zeta.
    eexists [_]. rewrite commit_committed. cbn [committed tick add_warnings clock_reads].
    rewrite Hc, Hk.
    split_and!; [reflexivity | by repeat constructor | done].
  - intros req accountId Hacc Helems.
    unfold PreprocessAndQueueBatchReport, mbind, M_bind.
    pose proof (account_same_queue env w) as (Hc & _).
    destruct (pipelineAccount env w) as [[acc|err] w1]; simpl in Hacc, Hc; [|done].
    pose proof (batchLoop_same_queue env (BatchReportRequest.BatchDrops req) 0
                  (replicate (List.length (BatchReportRequest.BatchDrops req)) None) w1)
      as (Hc' & _).
    pose proof (batchLoop_succeeds env _ Helems 0%nat
                  (replicate (List.length (BatchReportRequest.BatchDrops req)) None) w1)
      as Hloop.
    destruct (batchLoop env 0 _ _ w1) as [[reports|err] w2]; simpl in Hc', Hloop; [|done].
    eexists. rewrite commit_committed, Hc', Hc. split; reflexivity.
  - intros req accountId w0 drops category Hacc Hnorm Hstage.
    unfold PreprocessAndQueueSingularReport, mbind, M_bind.
    pose proof (account_same_queue env w) as (Hc & _ & Hk & _).
    destruct (pipelineAccount env w) as [[acc|err] w1]; simpl in Hacc, Hc, Hk; [|done].
    destruct (normalize_run env (SingleReportRequest.Drops req)) as (r & msgs & Hrun).
    rewrite Hrun in Hnorm |- *. simpl in Hnorm. subst r.
    unfold pipelineAggregateGachaboxDrops. cbn [ReportTaskSingleReport.StageID].
    rewrite Hstage.
    destruct (_ && _); unfold mret, M_ret;
      destruct (mitigation_run env req (add_warnings msgs w1)) as (req' & ->);
      unfold time_Now_UnixNano; cbn beta iota zeta;
      eexists; rewrite commit_committed; cbn [committed tick add_warnings clock_reads];
      rewrite Hc, Hk; split; reflexivity.
Qed.

(** Witness of C10: a batch of one element and a single submission of
    item [A]; each hands one task, the batch task with [CreatedAt] zero
    and the single task with the reading of the clock in microseconds. *)
Lemma task_creation_timestamp_witness :
  (∃ task,
     committed (PreprocessAndQueueBatchReport example_env
                  (BatchReportRequest.mk "CN" "client" "v1"
                     [BatchReportDrop.mk "main_01-07" [ArkDrop.mk "NORMAL_DROP" "A" 1] []])
                  World0).2
     = committed World0 ++ [("REPORT.BATCH", task)]
     ∧ ReportTask.CreatedAt task = 0)
  ∧ (∃ task,
       committed (PreprocessAndQueueSingularReport example_env
                    (SingleReportRequest.mk "CN" "client" "v1" "main_01-07"
                       [ArkDrop.mk "NORMAL_DROP" "A" 1] None)
                    World0).2
       = committed World0 ++ [("REPORT.SINGLE", task)]
       ∧ ReportTask.CreatedAt task = time_Now example_env 1 / 1000).
Proof.
  destruct (task_creation_timestamp example_env World0) as (_ & _ & Hbatch & Hsingle).
  split.
  - apply (Hbatch _ 1); [reflexivity |]. by repeat constructor.
  - apply (Hsingle _ 1 World0 [Drop.mk "REGULAR" 7 1] (NullString.mk "" false));
      reflexivity.
Defined.

(** ** The temporal mitigation *)

(** What the code does: the condition is on the prefix [act18d3_] and the
    suffix [_perm], and the first [_perm] of the stage id is replaced. *)
Lemma mitigation_result (env : Env) (req : SingleReportRequest.t) (w : World) :
  pipelineMaaAct18d3TemporaryMitigation env req w =
    (Ok (if mitigation_applies (time_Now env (clock_reads w)) req
         then set_StageID (strings.ReplaceFirst (SingleReportRequest.StageID req) "_perm" "_rep") req
         else req),
     tick w).
Proof.
  unfold pipelineMaaAct18d3TemporaryMitigation, mitigation_applies, mbind, M_bind,
    time_Now_UnixNano.
  cbn beta iota zeta. fold (tick w).
  destruct (_ <? _); [|reflexivity].
  destruct (String.eqb _ _); [|reflexivity].
  cbn [andb]. by destruct (_ && _).
Qed.

(** On the stage ids of the pattern the code does what is documented:
    before the cutoff and from [MeoAssistant], [act18d3_0<digit>_perm]
    becomes [act18d3_0<digit>_rep]. *)
Lemma mitigation_on_the_pattern (env : Env) (req : SingleReportRequest.t) (w : World) :
  act18d3_perm_pattern (SingleReportRequest.StageID req) = true →
  time_Now env (clock_reads w) / 1000000 < 1654718400000 →
  SingleReportRequest.Source req = "MeoAssistant" →
  ∃ digit,
    SingleReportRequest.StageID req = ("act18d3_0" ++ String digit "_perm")%string
    ∧ (pipelineMaaAct18d3TemporaryMitigation env req w).1
      = Ok (set_StageID ("act18d3_0" ++ String digit "_rep")%string req).
Proof.
  intros Hpattern Hearly Hsource. rewrite mitigation_result.
  unfold act18d3_perm_pattern in Hpattern.
  apply existsb_exists in Hpattern as (digit & Hdigit & Heq).
  apply String.eqb_eq in Heq. exists digit. split; [done |].
  unfold mitigation_applies. rewrite Heq, Hsource.
  rewrite (proj2 (Z.ltb_lt _ _) Hearly).
  unfold decimal_digits in Hdigit. simpl in Hdigit.
  destruct Hdigit as [<- | [<- | [<- | [<- | [<- | [<- | [<- | [<- | [<- | [<- | []]]]]]]]]]];
    reflexivity.
Qed.

(** C3: before the cutoff and from [MeoAssistant], the stage id
    [act18d3_10_perm], which is not of the form [act18d3_0<digit>_perm], is
    rewritten to [act18d3_10_rep].  The three cases of the claim that the
    code meets are evaluated beside it: [act18d3_05_perm] is rewritten to
    [act18d3_05_rep]; it is left as it is for another source, and after
    the cutoff. *)
Theorem mitigation_rewrites_outside_the_pattern :
  act18d3_perm_pattern "act18d3_10_perm" = false
  ∧ (pipelineMaaAct18d3TemporaryMitigation example_env
       (SingleReportRequest.mk "CN" "MeoAssistant" "v4.0" "act18d3_10_perm" [] None) World0).1
    = Ok (SingleReportRequest.mk "CN" "MeoAssistant" "v4.0" "act18d3_10_rep" [] None)
  ∧ act18d3_perm_pattern "act18d3_05_perm" = true
  ∧ (pipelineMaaAct18d3TemporaryMitigation example_env
       (SingleReportRequest.mk "CN" "MeoAssistant" "v4.0" "act18d3_05_perm" [] None) World0).1
    = Ok (SingleReportRequest.mk "CN" "MeoAssistant" "v4.0" "act18d3_05_rep" [] None)
  ∧ (pipelineMaaAct18d3TemporaryMitigation example_env
       (SingleReportRequest.mk "CN" "penguin-stats" "v4.0" "act18d3_05_perm" [] None) World0).1
    = Ok (SingleReportRequest.mk "CN" "penguin-stats" "v4.0" "act18d3_05_perm" [] None)
  ∧ (∀ env req w,
       1654718400000 <= time_Now env (clock_reads w) / 1000000 →
       (pipelineMaaAct18d3TemporaryMitigation env req w).1 = Ok req).
Proof.
  split_and!; try reflexivity.
  intros env req w Hlate. rewrite mitigation_result. unfold mitigation_applies.
  by rewrite (proj2 (Z.ltb_ge _ _) Hlate).
Qed.

(** ** The Queue Committer *)

Lemma select_cases_nonneg (env : Env) (pub : PubAckFuture) :
  Forall (λ c, 0 <= c.1) (select_cases env pub).
Proof.
  unfold select_cases.
  repeat apply Forall_app_2;
    repeat match goal with
           | |- context [match ?x with _ => _ end] => destruct x
           end;
    repeat constructor; simpl; unfold Second; lia.
Qed.

Lemma earliest_bounds (cases : list (Z * SelectCase)) :
  Forall (λ c, 0 <= c.1) cases → 0 <= earliest cases <= Second * 10.
Proof.
  unfold earliest. induction 1 as [|c cases Hc _ IH]; simpl; unfold Second in *; lia.
Qed.

Lemma earliest_le (cases : list (Z * SelectCase)) (x : Z * SelectCase) :
  x ∈ cases → earliest cases <= x.1.
Proof.
  unfold earliest. induction cases as [|c cases IH]; [by intros ?%elem_of_nil |].
  intros [-> | Hin]%elem_of_cons; simpl; [lia |].
  specialize (IH Hin). lia.
Qed.

Lemma earliest_attained (cases : list (Z * SelectCase)) :
  earliest cases = Second * 10 ∨ ∃ x, x ∈ cases ∧ x.1 = earliest cases.
Proof.
  unfold earliest. induction cases as [|c cases IH]; [by left |]. simpl.
  destruct (Z.min_spec c.1 (foldr (λ c t, Z.min c.1 t) (Second * 10) cases))
    as [[_ ->] | [_ ->]].
  - right. exists c. split; [apply list_elem_of_here | done].
  - destruct IH as [-> | (x & Hin & Hx)]; [by left |].
    right. exists x. split; [by apply list_elem_of_further | done].
Qed.

Lemma timer_in_select_cases (env : Env) (pub : PubAckFuture) :
  (Second * 10, CaseTimeAfter) ∈ select_cases env pub.
Proof.
  unfold select_cases. rewrite !elem_of_app. do 3 right. apply list_elem_of_here.
Qed.

(** A [select] runs a case that is ready first: no case is ready before
    it, and the world has waited until it is ready, between zero and ten
    seconds. *)
Lemma select_run (env : Env) (pub : PubAckFuture) (w : World) :
  ∃ c t,
    (t, c) ∈ select_cases env pub
    ∧ (∀ x, x ∈ select_cases env pub → t <= x.1)
    ∧ 0 <= t <= Second * 10
    ∧ select env pub w = (block t ;; mret c) w.
Proof.
  unfold select. cbn zeta.
  set (cases := select_cases env pub). set (t := earliest cases).
  set (ready := filter (λ c, c.1 = t) cases).
  assert (∃ x, x ∈ ready) as [x Hx].
  { destruct (earliest_attained cases) as [Ht | (x & Hin & Hx)].
    - exists (Second * 10, CaseTimeAfter). apply list_elem_of_filter.
      split; [by rewrite <- Ht | apply timer_in_select_cases].
    - exists x. by apply list_elem_of_filter. }
  assert (Hlen : (0 < List.length ready)%nat).
  { destruct ready; [by apply elem_of_nil in Hx | simpl; lia]. }
  destruct (lookup_lt_is_Some_2 ready (select_tie env mod List.length ready)%nat)
    as [[t' c] Hpick].
  { apply Nat.mod_upper_bound. lia. }
  rewrite Hpick. cbn [fmap option_fmap option_map default snd].
  apply list_elem_of_lookup_2, list_elem_of_filter in Hpick as [Ht' Hin]. simpl in Ht'.
  subst t'. exists c, t. split_and!.
  - done.
  - intros y Hy. by apply earliest_le.
  - apply earliest_bounds, select_cases_nonneg.
  - apply earliest_bounds, select_cases_nonneg.
  - reflexivity.
Qed.




(** The four outcomes, on a client that acknowledges after 5 ns, one that
    reports a failure after 5 ns, a request cancelled after 5 ns, and a
    client that never answers. *)
Example commit_acknowledged :
  commitReportTask example_env "REPORT.SINGLE" example_task World0
  = (Ok "req-1-0123456789abcdef",
     {| warnings := []; injected := [];
        committed := [("REPORT.SINGLE", example_task)];
        published := [("REPORT.SINGLE", "{}")];
        clock_reads := 0; waited := 5 |}).
Proof. reflexivity. Qed.

Example commit_publish_failed :
  (commitReportTask
     (with_PublishAsync (λ _ _, inr {| pub_Err := Some (5, "nats: no response"); pub_Ok := None |})
        None example_env)
     "REPORT.SINGLE" example_task World0).1
  = Err (ErrNats "nats: no response").
Proof. reflexivity. Qed.

Example commit_cancelled :
  (commitReportTask
     (with_PublishAsync (λ _ _, inr {| pub_Err := None; pub_Ok := Some 7 |})
        (Some (5, Canceled)) example_env)
     "REPORT.SINGLE" example_task World0).1
  = Err (ErrContext Canceled).
Proof. reflexivity. Qed.

Example commit_timed_out :
  let run :=
    commitReportTask
      (with_PublishAsync (λ _ _, inr {| pub_Err := None; pub_Ok := None |}) None example_env)
      "REPORT.SINGLE" example_task World0 in
  run.1 = Err ErrNatsTimeout ∧ waited run.2 = 10 * Second.
Proof. split; reflexivity. Qed.


(** ** Recall *)

Section RecallFacts.

Context {DB : Type} (DeleteDropReport : DB → Z → option error * DB).

Local Abbreviation Recall := (RecallSingularReport DB DeleteDropReport).

(** On a miss recall returns [ErrReportNotFound] and changes nothing. *)
Lemma recall_miss (get del : option error) (req : SingleReportRecallRequest.t)
    (s : Store DB) :
  redis DB s !! SingleReportRecallRequest.ReportHash req = None →
  (Recall get del req s).1 ≠ None
  ∧ Recall None del req s = (Some ErrReportNotFound, s).
Proof.
  intros Hmiss. unfold RecallSingularReport, Redis_Get. rewrite Hmiss.
  split; [|reflexivity].
  destruct get as [err|]; simpl; [|done].
  by destruct (errors_Is err RedisNil).
Qed.

(** On a hit the report is deleted first: when the delete fails its error
    is returned and the mapping stays; when it succeeds [DEL] is sent and
    nil is returned. *)
Lemma recall_hit (del : option error) (req : SingleReportRecallRequest.t) (s : Store DB)
    (v : string) (reportId : Z) :
  redis DB s !! SingleReportRecallRequest.ReportHash req = Some v →
  strconv.Atoi v = Ok reportId →
  Recall None del req s =
    match DeleteDropReport (db DB s) reportId with
    | (Some err, db') => (Some err, {| redis := redis DB s; db := db' |})
    | (None, db') =>
        (None,
         {| redis := (Redis_Del del (redis DB s) (SingleReportRecallRequest.ReportHash req)).2;
            db := db' |})
    end.
Proof.
  intros Hhit Hid. unfold RecallSingularReport, Redis_Get, StringCmd_Int.
  rewrite Hhit. simpl. by rewrite Hid.
Qed.

(** A recall that succeeds has sent [DEL] for the hash. *)
Lemma recall_success (get del : option error) (req : SingleReportRecallRequest.t)
    (s s' : Store DB) :
  Recall get del req s = (None, s') →
  redis DB s' = (Redis_Del del (redis DB s) (SingleReportRecallRequest.ReportHash req)).2.
Proof.
  unfold RecallSingularReport, Redis_Get, StringCmd_Int.
  destruct get as [err|]; simpl.
  { by destruct (errors_Is err RedisNil). }
  destruct (redis DB s !! _) as [v|]; simpl; [|done].
  destruct (strconv.Atoi v) as [reportId|err]; [|done].
  destruct (DeleteDropReport (db DB s) reportId) as [[err|] db']; [done |].
  by intros [= <-].
Qed.

(** When [DEL] reaches the store, a recall that succeeded is followed by
    [ErrReportNotFound]: a second recall of the hash never succeeds. *)
Lemma recall_removed_then_not_found (get : option error)
    (req : SingleReportRecallRequest.t) (s s' : Store DB) :
  Recall get None req s = (None, s') →
  (∀ del, Recall None del req s' = (Some ErrReportNotFound, s'))
  ∧ ∀ get' del, (Recall get' del req s').1 ≠ None.
Proof.
  intros Hrun. apply recall_success in Hrun as Hredis.
  assert (Hmiss : redis DB s' !! SingleReportRecallRequest.ReportHash req = None).
  { rewrite Hredis. apply lookup_delete_eq. }
  split.
  - intros del. exact (proj2 (recall_miss None del req s' Hmiss)).
  - intros get' del. exact (proj1 (recall_miss get' del req s' Hmiss)).
Qed.

(** C6: the reply of [s.Redis.Del] is discarded.  On a hit whose report is
    deleted, a [DEL] that fails leaves the mapping in place and the recall
    returns nil all the same; a second recall of the hash finds the
    mapping, asks for the deletion of the same report again and, when the
    repository answers nil again, returns nil: two successes.  When [DEL]
    reaches the store, the mapping is removed and a second recall returns
    [ErrReportNotFound]. *)
Theorem recall_succeeds_twice_when_Del_fails
    (req : SingleReportRecallRequest.t) (s : Store DB)
    (v : string) (reportId : Z) (err : error) (db1 db2 : DB) :
  let hash := SingleReportRecallRequest.ReportHash req in
  redis DB s !! hash = Some v →
  strconv.Atoi v = Ok reportId →
  DeleteDropReport (db DB s) reportId = (None, db1) →
  DeleteDropReport db1 reportId = (None, db2) →
  (Recall None (Some err) req s = (None, {| redis := redis DB s; db := db1 |})
   ∧ ∀ del, (Recall None del req {| redis := redis DB s; db := db1 |}).1 = None)
  ∧ (Recall None None req s = (None, {| redis := delete hash (redis DB s); db := db1 |})
     ∧ ∀ del, Recall None del req {| redis := delete hash (redis DB s); db := db1 |}
              = (Some ErrReportNotFound, {| redis := delete hash (redis DB s); db := db1 |})).
Proof.
  intros hash Hhit Hid Hdel Hdel'. split_and!.
  - by rewrite (recall_hit _ req s v reportId Hhit Hid), Hdel.
  - intros del.
    rewrite (recall_hit del req {| redis := redis DB s; db := db1 |} v reportId Hhit Hid).
    cbn [db]. by rewrite Hdel'.
  - by rewrite (recall_hit _ req s v reportId Hhit Hid), Hdel.
  - intros del.
    apply (recall_miss None del req {| redis := delete hash (redis DB s); db := db1 |}).
    apply lookup_delete_eq.
Qed.

End RecallFacts.

(** Witness of C6: the connection fails at [DEL] during the first recall
    of [hash-1]; both recalls return nil. *)
Lemma recall_succeeds_twice_when_Del_fails_witness :
  let recall del := RecallSingularReport (list Z) example_idempotent_DeleteDropReport None del
                      (SingleReportRecallRequest.mk "hash-1") in
  recall (Some (ErrExternal "connection reset")) example_idempotent_store
  = (None, {| redis := {["hash-1" := "42"]}; db := [41] |})
  ∧ (recall None (recall (Some (ErrExternal "connection reset")) example_idempotent_store).2).1
    = None.
Proof.
  intros recall.
  destruct (recall_succeeds_twice_when_Del_fails example_idempotent_DeleteDropReport
              (SingleReportRecallRequest.mk "hash-1") example_idempotent_store
              "42" 42 (ErrExternal "connection reset") [41] [41]
              eq_refl eq_refl eq_refl eq_refl)
    as [[Hfirst Hsecond] _].
  unfold recall. rewrite Hfirst. split; [reflexivity |]. exact (Hsecond None).
Defined.

(** ** Unknown drop types *)

Section VerifyFacts.

Context {DropInfo : Type}
  (GetCurrentTimeRangeDropInfo : string → string → list (list string) → Result (list DropInfo))
  (ctx_JSON : list DropInfo → option error).

(** The captured [err] after the drops have been visited: the error of
    the last drop whose type is unknown, the error before them when there
    is none. *)
Lemma select_tuples_err (drops : list legacy.Drop) (err : option error) :
  (Forall (λ drop, is_Some (konst.DropTypeMap !! legacy.DropType drop)) drops
   ∧ (legacy.select_tuples drops err).2 = err)
  ∨ ∃ drop,
      drop ∈ drops
      ∧ konst.DropTypeMap !! legacy.DropType drop = None
      ∧ (legacy.select_tuples drops err).2
        = Some (legacy.ErrInvalidDropType konst.DropTypeMapKeys (legacy.DropType drop)).
Proof.
  revert err. induction drops as [|drop drops IH]; intros err.
  - left. by split.
  - cbn [legacy.select_tuples]. unfold legacy.selector, konst.index_ok.
    destruct (konst.DropTypeMap !! legacy.DropType drop) as [mapped|] eqn:Hdrop; cbn.
    + destruct (IH err) as [[Hall Herr] | (d & Hin & Hd & Herr)].
      * left. destruct (legacy.select_tuples drops err) as [tuples e]. simpl in *.
        split; [|done]. constructor; [by rewrite Hdrop | done].
      * right. exists d. destruct (legacy.select_tuples drops err) as [tuples e]. simpl in *.
        split_and!; [by apply list_elem_of_further | done | done].
    + set (e0 := Some (legacy.ErrInvalidDropType konst.DropTypeMapKeys (legacy.DropType drop))).
      destruct (IH e0) as [[Hall Herr] | (d & Hin & Hd & Herr)].
      * right. exists drop. destruct (legacy.select_tuples drops e0) as [tuples e]. simpl in *.
        split_and!; [apply list_elem_of_here | done | done].
      * right. exists d. destruct (legacy.select_tuples drops e0) as [tuples e]. simpl in *.
        split_and!; [by apply list_elem_of_further | done | done].
Qed.

(** [VerifySingularReport] rejects a report with a drop of unknown type:
    it returns the invalid-request error of such a drop, and has neither
    queried the drop infos nor written a response. *)
Lemma verify_rejects_unknown_drop_type (report : legacy.SingularReportRequest)
    (drop : legacy.Drop) :
  drop ∈ legacy.Drops report →
  konst.DropTypeMap !! legacy.DropType drop = None →
  ∃ unknown,
    unknown ∈ legacy.Drops report
    ∧ konst.DropTypeMap !! legacy.DropType unknown = None
    ∧ legacy.VerifySingularReport DropInfo GetCurrentTimeRangeDropInfo ctx_JSON report
      = (Some (legacy.ErrInvalidDropType konst.DropTypeMapKeys (legacy.DropType unknown)), []).
Proof.
  intros Hin Hdrop. unfold legacy.VerifySingularReport.
  destruct (select_tuples_err (legacy.Drops report) None)
    as [[Hall _] | (d & Hd & Hnone & Herr)].
  - rewrite Forall_forall in Hall. specialize (Hall drop Hin).
    rewrite Hdrop in Hall. by destruct Hall.
  - exists d. destruct (legacy.select_tuples (legacy.Drops report) None) as [tuples e].
    simpl in Herr. subst e. by split_and!.
Qed.

End VerifyFacts.

(** C2: the drop type [FURNITURE] is not in the vocabulary, and the
    normalizer puts out a drop of the empty type for it; the submission is
    handed to the committer and published, and returns a task id.
    [VerifySingularReport] returns the invalid-request error for the same
    drop, without a query or a response. *)
Theorem normalizer_accepts_unknown_drop_type :
  konst.DropTypeMap !! "FURNITURE" = None
  ∧ pipelineMergeDropsAndMapDropTypes example_env [ArkDrop.mk "FURNITURE" "A" 1] World0
    = (Ok [Drop.mk "" 7 1], World0)
  ∧ (PreprocessAndQueueSingularReport example_env unknown_type_request World0).1
    = Ok "req-1-0123456789abcdef"
  ∧ published (PreprocessAndQueueSingularReport example_env unknown_type_request World0).2
    = [("REPORT.SINGLE", "{}")]
  ∧ legacy.VerifySingularReport unit (λ _ _ _, Ok []) (λ _, None)
      (legacy.mkRequest "CN" "main_01-07" [legacy.mkDrop "FURNITURE" "A" 1])
    = (Some (legacy.ErrInvalidDropType konst.DropTypeMapKeys "FURNITURE"), []).
Proof. split_and!; vm_compute; reflexivity. Qed.

(** ** The selectors of the push-protocol messages *)






(** The generated getters return the zero value for the member that is not
    set, so at most one of them returns the value that was given. *)
Lemma getters_of_the_other_member (o : option protos.oneof_id) :
  (protos.has_stage_id o = false → protos.GetStageId o = 0)
  ∧ (protos.has_item_id o = false → protos.GetItemId o = 0)
  ∧ (protos.GetStageId o = 0 ∨ protos.GetItemId o = 0).
Proof. destruct o as [[v|v]|]; cbn; split_and!; (done || tauto). Qed.

(** The numbers of the message types: the server push starts at [2^8],
    the request at [2^12], the response is the request plus one. *)
Lemma MessageType_numbers :
  protos.MessageType_number protos.MATRIX_UPDATE_MESSAGE = 2 ^ 8
  ∧ protos.MessageType_number protos.MATRIX_UPDATE_SUBSCRIBE_REQ = 2 ^ 12
  ∧ protos.MessageType_number protos.MATRIX_UPDATE_SUBSCRIBE_RESP
    = protos.MessageType_number protos.MATRIX_UPDATE_SUBSCRIBE_REQ + 1.
Proof. by split_and!. Qed.

(** * Further properties *)

(** ** What a request leaves behind *)

Lemma account_injected (env : Env) (w : World) :
  injected (pipelineAccount env w).2 = injected w ++ created_ids env.
Proof.
  unfold pipelineAccount, created_ids.
  destruct (GetAccountFromRequest env); simpl; [by rewrite app_nil_r |].
  destruct (CreateAccountWithRandomPenguinId env); simpl; [done | by rewrite app_nil_r].
Qed.

Lemma batchLoop_injected (env : Env) (batchDrops : list BatchReportDrop.t) :
  ∀ i reports w, injected (batchLoop env i batchDrops reports w).2 = injected w.
Proof.
  induction batchDrops as [|drop rest IH]; intros i reports w; [done |].
  cbn [batchLoop]. unfold mbind, M_bind.
  destruct (normalize_run env (BatchReportDrop.Drops drop)) as (r & msgs & ->).
  destruct r as [drops|err]; [|done].
  match goal with |- context [pipelineAggregateGachaboxDrops env ?rep] =>
    destruct (aggregate_run env rep) as (r & ->) end.
  destruct r as [report|err]; [|done].
  by rewrite IH.
Qed.

Lemma commit_injected (env : Env) (subject : string) (task : ReportTask.t) (w : World) :
  injected (commitReportTask env subject task w).2 = injected w.
Proof.
  unfold commitReportTask, mbind, M_bind, ghost_commit. cbn beta iota zeta.
  destruct (json_Marshal env _) as [data|err]; [|reflexivity].
  unfold NatsJS_PublishAsync.
  destruct (PublishAsync env subject data) as [msg|pub]; [reflexivity |].
  unfold select, mbind, M_bind, block, mret, M_ret. cbn beta iota zeta.
  by destruct (default _ _).
Qed.

(** X1: a request injects a penguin id exactly when it has created the
    account, and the injection stays when the request fails later: after
    a single or a batch submission, whatever it returns, the injected ids
    are those before it followed by the id of the created account. *)
Theorem created_account_is_injected (env : Env) (w : World) :
  (∀ req,
     injected (PreprocessAndQueueSingularReport env req w).2
     = injected w ++ created_ids env)
  ∧ (∀ req,
       injected (PreprocessAndQueueBatchReport env req w).2
       = injected w ++ created_ids env).
Proof.
  split; intros req.
  - unfold PreprocessAndQueueSingularReport, mbind, M_bind.
    pose proof (account_injected env w) as Hacc.
    destruct (pipelineAccount env w) as [[accountId|err] w1]; simpl in Hacc; [|done].
    destruct (normalize_run env (SingleReportRequest.Drops req)) as (r & msgs & ->).
    destruct r as [drops|err]; [|done].
    match goal with |- context [pipelineAggregateGachaboxDrops env ?rep] =>
      destruct (aggregate_run env rep) as (r & ->) end.
    destruct r as [report|err]; [|done].
    destruct (mitigation_run env req (add_warnings msgs w1)) as (req' & ->).
    unfold time_Now_UnixNano. cbn beta iota zeta.
    by rewrite commit_injected.
  - unfold PreprocessAndQueueBatchReport, mbind, M_bind.
    pose proof (account_injected env w) as Hacc.
    destruct (pipelineAccount env w) as [[accountId|err] w1]; simpl in Hacc; [|done].
    pose proof (batchLoop_injected env (BatchReportRequest.BatchDrops req) 0
                  (replicate (List.length (BatchReportRequest.BatchDrops req)) None) w1)
      as Hloop.
    destruct (batchLoop env 0 _ _ w1) as [[reports|err] w2]; simpl in Hloop;
      [|simpl; congruence].
    rewrite commit_injected. congruence.
Qed.

(** ** Single-report submissions *)

Lemma aggregate_keeps_stage (env : Env) (report r : ReportTaskSingleReport.t) (w w' : World) :
  (∀ r, ReportTaskSingleReport.StageID (AggregateGachaBoxDrops env r)
        = ReportTaskSingleReport.StageID r) →
  pipelineAggregateGachaboxDrops env report w = (Ok r, w') →
  ReportTaskSingleReport.StageID r = ReportTaskSingleReport.StageID report.
Proof.
  intros Hagg. unfold pipelineAggregateGachaboxDrops.
  destruct (GetStageExtraProcessTypeByArkId env _) as [category|err]; [|done].
  destruct (_ && _); intros [= <- _]; [apply Hagg | done].
Qed.

(** X2: the report of a single submission is built from the stage id as
    submitted: the temporal mitigation runs after the report has copied
    the stage id, so the task handed to the committer never carries the
    rewritten id.  The aggregation is assumed to keep the stage id of a
    report. *)
Theorem single_task_carries_the_submitted_stage
    (env : Env) (req : SingleReportRequest.t) (w : World) :
  (∀ r, ReportTaskSingleReport.StageID (AggregateGachaBoxDrops env r)
        = ReportTaskSingleReport.StageID r) →
  ∃ handed,
    committed (PreprocessAndQueueSingularReport env req w).2 = committed w ++ handed
    ∧ Forall (λ c, ∃ r, ReportTask.Reports c.2 = [Some r]
                        ∧ ReportTaskSingleReport.StageID r = SingleReportRequest.StageID req)
             handed
    ∧ (is_Ok (PreprocessAndQueueSingularReport env req w).1 → List.length handed = 1%nat).
Proof.
  intros Hagg. unfold PreprocessAndQueueSingularReport, mbind, M_bind.
  pose proof (account_same_queue env w) as (Hc & _).
  destruct (pipelineAccount env w) as [[accountId|err] w1]; simpl in Hc;
    [|exists []; rewrite app_nil_r; by split_and!].
  destruct (normalize_run env (SingleReportRequest.Drops req)) as (r & msgs & ->).
  destruct r as [drops|err];
    [|exists []; rewrite app_nil_r; by split_and!].
  match goal with |- context [pipelineAggregateGachaboxDrops env ?rep] =>
    pose proof (aggregate_keeps_stage env rep) as Hstage;
    destruct (aggregate_run env rep) as (r & Hr) end.
  rewrite Hr. destruct r as [report|err];
    [|exists []; rewrite app_nil_r; by split_and!].
  specialize (Hstage report _ _ Hagg (Hr (add_warnings msgs w1))). simpl in Hstage.
  destruct (mitigation_run env req (add_warnings msgs w1)) as (req' & ->).
  unfold time_Now_UnixNano. cbn beta iota zeta.
  eexists [_]. rewrite commit_committed. cbn [committed tick add_warnings].
  rewrite Hc. split_and!; [reflexivity | | done].
  repeat constructor. by exists report.
Qed.

(** Witness of X2: a request of [MeoAssistant] for [act18d3_05_perm]
    before the cutoff, which the mitigation rewrites. *)
Lemma single_task_carries_the_submitted_stage_witness :
  ∃ handed,
    committed (PreprocessAndQueueSingularReport example_env
                 (SingleReportRequest.mk "CN" "MeoAssistant" "v4.0" "act18d3_05_perm"
                    [ArkDrop.mk "NORMAL_DROP" "A" 1] None) World0).2
    = committed World0 ++ handed
    ∧ Forall (λ c, ∃ r, ReportTask.Reports c.2 = [Some r]
                        ∧ ReportTaskSingleReport.StageID r = "act18d3_05_perm")
             handed
    ∧ (is_Ok (PreprocessAndQueueSingularReport example_env
                (SingleReportRequest.mk "CN" "MeoAssistant" "v4.0" "act18d3_05_perm"
                   [ArkDrop.mk "NORMAL_DROP" "A" 1] None) World0).1
       → List.length handed = 1%nat).
Proof.
  apply (single_task_carries_the_submitted_stage example_env
           (SingleReportRequest.mk "CN" "MeoAssistant" "v4.0" "act18d3_05_perm"
              [ArkDrop.mk "NORMAL_DROP" "A" 1] None) World0).
  reflexivity.
Defined.

(** The same request run: the mitigation rewrites the stage id of the
    request, and the task still has the id as submitted. *)
Example mitigated_request_run :
  let req := SingleReportRequest.mk "CN" "MeoAssistant" "v4.0" "act18d3_05_perm"
               [ArkDrop.mk "NORMAL_DROP" "A" 1] None in
  (pipelineMaaAct18d3TemporaryMitigation example_env req World0).1
  = Ok (set_StageID "act18d3_05_rep" req)
  ∧ committed (PreprocessAndQueueSingularReport example_env req World0).2
    = [("REPORT.SINGLE",
        ReportTask.mk "" 1654000000000000 "CN" "MeoAssistant" "v4.0"
          [Some (ReportTaskSingleReport.mk "act18d3_05_perm" [Drop.mk "REGULAR" 7 1] 1 None)]
          1 "192.0.2.1")].
Proof. split; vm_compute; reflexivity. Qed.

(** X3: a single submission whose account cannot be obtained, whose drops
    fail normalization or whose stage cannot be looked up returns an error
    before the commit: nothing is handed to the committer or published,
    and the clock is not read (the mitigation has not run). *)
Theorem single_fails_before_the_commit
    (env : Env) (req : SingleReportRequest.t) (w : World) :
  (∃ err, (pipelineAccount env w).1 = Err err)
  ∨ (∃ w0 err,
       (pipelineMergeDropsAndMapDropTypes env (SingleReportRequest.Drops req) w0).1 = Err err)
  ∨ (∃ err, GetStageExtraProcessTypeByArkId env (SingleReportRequest.StageID req) = Err err) →
  ∃ err,
    (PreprocessAndQueueSingularReport env req w).1 = Err err
    ∧ same_queue w (PreprocessAndQueueSingularReport env req w).2.
Proof.
  intros Hfail. unfold PreprocessAndQueueSingularReport, mbind, M_bind.
  pose proof (account_same_queue env w) as Hacc.
  destruct (pipelineAccount env w) as [[accountId|err] w1] eqn:Haccount; simpl in Hacc;
    [|by exists err].
  destruct (normalize_run env (SingleReportRequest.Drops req)) as (r & msgs & Hrun).
  rewrite Hrun. destruct r as [drops|err].
  2: { exists err. split; [done |].
       eapply same_queue_trans; [exact Hacc | apply same_queue_add_warnings]. }
  unfold pipelineAggregateGachaboxDrops. cbn [ReportTaskSingleReport.StageID].
  destruct (GetStageExtraProcessTypeByArkId env (SingleReportRequest.StageID req))
    as [category|err] eqn:Hstage.
  2: { exists err. split; [done |].
       eapply same_queue_trans; [exact Hacc | apply same_queue_add_warnings]. }
  exfalso. destruct Hfail as [[err H] | [(w0 & err & H) | [err H]]].
  - simpl in H. discriminate H.
  - rewrite Hrun in H. discriminate H.
  - discriminate H.
Qed.

(** Witness of X3: the lookup of item [B] fails. *)
Lemma single_fails_before_the_commit_witness :
  ∃ err,
    (PreprocessAndQueueSingularReport example_env
       (SingleReportRequest.mk "CN" "client" "v1" "main_01-07"
          [ArkDrop.mk "NORMAL_DROP" "B" 1] None) World0).1 = Err err
    ∧ same_queue World0
        (PreprocessAndQueueSingularReport example_env
           (SingleReportRequest.mk "CN" "client" "v1" "main_01-07"
              [ArkDrop.mk "NORMAL_DROP" "B" 1] None) World0).2.
Proof.
  apply single_fails_before_the_commit.
  right. left. exists World0, (ErrExternal "item lookup failed"). reflexivity.
Defined.

(** ** Batch submissions: the reports *)

(** The loop fills the slice by index: after it has run from index [i]
    over [rest], the slots before [i] and after the elements are as they
    were, and the slots between hold the reports of the elements, in
    order. *)
Lemma batchLoop_fills (env : Env) (rest : list BatchReportDrop.t) :
  ∀ i reports w reports' w',
    (i + List.length rest ≤ List.length reports)%nat →
    batchLoop env i rest reports w = (Ok reports', w') →
    ∃ rs,
      Forall2 (λ elem r, element_report env elem = Ok r) rest rs
      ∧ reports' = take i reports ++ (Some <$> rs) ++ drop (i + List.length rest) reports.
Proof.
  induction rest as [|elem rest IH]; intros i reports w reports' w' Hlen Hrun.
  - injection Hrun as <- _. exists []. split; [constructor |].
    simpl. by rewrite Nat.add_0_r, take_drop.
  - cbn [batchLoop] in Hrun. simpl in Hlen.
    destruct (element_report_run env elem w) as (msgs & Helem).
    unfold mbind, M_bind in Hrun, Helem.
    destruct (pipelineMergeDropsAndMapDropTypes env (BatchReportDrop.Drops elem) w)
      as [[drops|err] w1]; [|done].
    destruct (pipelineAggregateGachaboxDrops env _ w1) as [[report|err] w2]; [|done].
    injection Helem as Helem _.
    apply IH in Hrun as (rs & Hrs & ->); [|rewrite length_insert; lia].
    exists (report :: rs). split; [by constructor |].
    rewrite (take_S_r _ _ (Some report)) by (apply list_lookup_insert_eq; lia).
    rewrite take_insert_ge by lia. rewrite drop_insert_lt by lia.
    cbn [List.length].
    replace (i + S (List.length rest))%nat with (S i + List.length rest)%nat by lia.
    by rewrite <- app_assoc.
Qed.

(** X4: the task a batch submission hands to the committer holds one
    report per element of the batch, none of them nil, in the order of the
    elements: the report at index [i] is the one built from element [i]. *)
Theorem batch_reports_follow_the_elements
    (env : Env) (req : BatchReportRequest.t) (w : World) :
  ∃ handed,
    committed (PreprocessAndQueueBatchReport env req w).2 = committed w ++ handed
    ∧ Forall (λ c, ∃ reports,
                ReportTask.Reports c.2 = Some <$> reports
                ∧ Forall2 (λ elem r, element_report env elem = Ok r)
                          (BatchReportRequest.BatchDrops req) reports)
             handed
    ∧ (is_Ok (PreprocessAndQueueBatchReport env req w).1 → List.length handed = 1%nat).
Proof.
  unfold PreprocessAndQueueBatchReport, mbind, M_bind.
  pose proof (account_same_queue env w) as (Hc & _).
  destruct (pipelineAccount env w) as [[accountId|err] w1]; simpl in Hc;
    [|exists []; rewrite app_nil_r; by split_and!].
  pose proof (batchLoop_same_queue env (BatchReportRequest.BatchDrops req) 0
                (replicate (List.length (BatchReportRequest.BatchDrops req)) None) w1)
    as (Hc' & _).
  destruct (batchLoop env 0 _ _ w1) as [[reports|err] w2] eqn:Hloop; simpl in Hc';
    [|exists []; rewrite app_nil_r; split_and!; [simpl; congruence | constructor | done]].
  apply batchLoop_fills in Hloop as (rs & Hrs & ->); [|by rewrite length_replicate].
  eexists [_]. rewrite commit_committed, Hc', Hc.
  split_and!; [reflexivity | | done].
  repeat constructor. exists rs. cbn [ReportTask.Reports snd]. split; [|done].
  rewrite take_0, drop_ge by (rewrite length_replicate; lia).
  by rewrite app_nil_r.
Qed.

(** ** The commit: what is published, and which case runs *)

(** The run of [commitReportTask] once the task is encoded and the client
    has returned a future: it is decided by the case the [select] runs. *)
Lemma commit_run_case (env : Env) (subject : string) (task : ReportTask.t) (w : World)
    (data : string) (pub : PubAckFuture) :
  json_Marshal env (set_TaskID (pipelineTaskId env) task) = Ok data →
  PublishAsync env subject data = inr pub →
  ∃ c t,
    (t, c) ∈ select_cases env pub
    ∧ (∀ x, x ∈ select_cases env pub → t <= x.1)
    ∧ (commitReportTask env subject task w).1 = case_result env c
    ∧ waited (commitReportTask env subject task w).2 = waited w + t
    ∧ published (commitReportTask env subject task w).2 = published w ++ [(subject, data)].
Proof.
  intros Hdata Hpub.
  unfold commitReportTask, mbind, M_bind, ghost_commit. cbn beta iota zeta.
  rewrite Hdata. unfold NatsJS_PublishAsync. rewrite Hpub.
  match goal with |- context [select env pub ?w1] =>
    destruct (select_run env pub w1) as (c & t & Hin & Hmin & _ & ->) end.
  exists c, t. unfold mbind, M_bind, block, mret, M_ret. cbn beta iota zeta.
  by destruct c.
Qed.

(** X5: the id a commit returns is the request id, a dash and the random
    suffix, and it is the id of the task inside the message the commit has
    published: the one message on the subject, encoding the task with its
    [TaskID] set to the returned id. *)
Theorem commit_publishes_the_returned_id
    (env : Env) (subject : string) (task : ReportTask.t) (w : World) (taskId : string) :
  (commitReportTask env subject task w).1 = Ok taskId →
  taskId = (RequestID env ++ "-" ++ uniuri_NewLen env 16)%string
  ∧ ∃ data,
      json_Marshal env (set_TaskID taskId task) = Ok data
      ∧ published (commitReportTask env subject task w).2 = published w ++ [(subject, data)].
Proof.
  intros Hok.
  destruct (json_Marshal env (set_TaskID (pipelineTaskId env) task)) as [data|err] eqn:Hdata.
  2: { unfold commitReportTask, mbind, M_bind, ghost_commit in Hok.
       cbn beta iota zeta in Hok. by rewrite Hdata in Hok. }
  destruct (PublishAsync env subject data) as [msg|pub] eqn:Hpub.
  { unfold commitReportTask, mbind, M_bind, ghost_commit, NatsJS_PublishAsync in Hok.
    cbn beta iota zeta in Hok. by rewrite Hdata, Hpub in Hok. }
  destruct (commit_run_case env subject task w data pub Hdata Hpub)
    as (c & t & _ & _ & Hres & _ & Hpublished).
  rewrite Hres in Hok. destruct c; try discriminate Hok.
  injection Hok as <-. split; [reflexivity |]. by exists data.
Qed.

(** Witness of X5: the client acknowledges. *)
Lemma commit_publishes_the_returned_id_witness :
  "req-1-0123456789abcdef" = (RequestID example_env ++ "-" ++ uniuri_NewLen example_env 16)%string
  ∧ ∃ data,
      json_Marshal example_env (set_TaskID "req-1-0123456789abcdef" example_task) = Ok data
      ∧ published (commitReportTask example_env "REPORT.SINGLE" example_task World0).2
        = published World0 ++ [("REPORT.SINGLE", data)].
Proof.
  apply (commit_publishes_the_returned_id example_env "REPORT.SINGLE" example_task World0).
  reflexivity.
Defined.

Lemma commit_published (env : Env) (subject : string) (task : ReportTask.t) (w : World) :
  ∃ pubs,
    published (commitReportTask env subject task w).2 = published w ++ pubs
    ∧ (List.length pubs ≤ 1)%nat
    ∧ Forall (λ p, p.1 = subject) pubs
    ∧ (is_Ok (commitReportTask env subject task w).1 → List.length pubs = 1%nat).
Proof.
  destruct (json_Marshal env (set_TaskID (pipelineTaskId env) task)) as [data|err] eqn:Hdata.
  2: { unfold commitReportTask, mbind, M_bind, ghost_commit. cbn beta iota zeta.
       rewrite Hdata. exists []. simpl. rewrite app_nil_r. split_and!; [done | lia | done | done]. }
  exists [(subject, data)]. split_and!; [|simpl; lia | by repeat constructor | done].
  destruct (PublishAsync env subject data) as [msg|pub] eqn:Hpub.
  - unfold commitReportTask, mbind, M_bind, ghost_commit, NatsJS_PublishAsync.
    cbn beta iota zeta. by rewrite Hdata, Hpub.
  - by destruct (commit_run_case env subject task w data pub Hdata Hpub)
      as (c & t & _ & _ & _ & _ & ->).
Qed.

(** X6: a request publishes at most one message, on the subject of its
    kind ([REPORT.SINGLE] or [REPORT.BATCH], whatever the number of
    elements of the batch), and a request that returns a task id has
    published exactly one. *)
Theorem request_publishes_at_most_once (env : Env) (w : World) :
  (∀ req, ∃ pubs,
     published (PreprocessAndQueueSingularReport env req w).2 = published w ++ pubs
     ∧ (List.length pubs ≤ 1)%nat
     ∧ Forall (λ p, p.1 = "REPORT.SINGLE") pubs
     ∧ (is_Ok (PreprocessAndQueueSingularReport env req w).1 → List.length pubs = 1%nat))
  ∧ (∀ req, ∃ pubs,
       published (PreprocessAndQueueBatchReport env req w).2 = published w ++ pubs
       ∧ (List.length pubs ≤ 1)%nat
       ∧ Forall (λ p, p.1 = "REPORT.BATCH") pubs
       ∧ (is_Ok (PreprocessAndQueueBatchReport env req w).1 → List.length pubs = 1%nat)).
Proof.
  split; intros req.
  - unfold PreprocessAndQueueSingularReport, mbind, M_bind.
    pose proof (account_same_queue env w) as (_ & Hp & _).
    destruct (pipelineAccount env w) as [[accountId|err] w1]; simpl in Hp;
      [|exists []; rewrite app_nil_r; split_and!; [done | simpl; lia | done | done]].
    destruct (normalize_run env (SingleReportRequest.Drops req)) as (r & msgs & ->).
    destruct r as [drops|err];
      [|exists []; rewrite app_nil_r; split_and!; [done | simpl; lia | done | done]].
    match goal with |- context [pipelineAggregateGachaboxDrops env ?rep] =>
      destruct (aggregate_run env rep) as (r & ->) end.
    destruct r as [report|err];
      [|exists []; rewrite app_nil_r; split_and!; [done | simpl; lia | done | done]].
    destruct (mitigation_run env req (add_warnings msgs w1)) as (req' & ->).
    unfold time_Now_UnixNano. cbn beta iota zeta.
    match goal with |- context [commitReportTask env ?subj ?task ?w2] =>
      destruct (commit_published env subj task w2) as (pubs & Hpubs & Hlen & Hsubj & Hok) end.
    exists pubs. split_and!; [|done | done | exact Hok].
    rewrite Hpubs. cbn [published tick add_warnings]. by rewrite Hp.
  - unfold PreprocessAndQueueBatchReport, mbind, M_bind.
    pose proof (account_same_queue env w) as (_ & Hp & _).
    destruct (pipelineAccount env w) as [[accountId|err] w1]; simpl in Hp;
      [|exists []; rewrite app_nil_r; split_and!; [done | simpl; lia | done | done]].
    pose proof (batchLoop_same_queue env (BatchReportRequest.BatchDrops req) 0
                  (replicate (List.length (BatchReportRequest.BatchDrops req)) None) w1)
      as (_ & Hp' & _).
    destruct (batchLoop env 0 _ _ w1) as [[reports|err] w2]; simpl in Hp';
      [|exists []; rewrite app_nil_r; split_and!; [simpl; congruence | simpl; lia | done | done]].
    match goal with |- context [commitReportTask env ?subj ?task ?w3] =>
      destruct (commit_published env subj task w3) as (pubs & Hpubs & Hlen & Hsubj & Hok) end.
    exists pubs. split_and!; [|done | done | exact Hok].
    by rewrite Hpubs, Hp', Hp.
Qed.

(** A case that is ready strictly before every other case is the one a
    [select] runs. *)
Lemma select_strictly_first (env : Env) (pub : PubAckFuture) (t : Z) (c : SelectCase) :
  (t, c) ∈ select_cases env pub →
  (∀ x, x ∈ select_cases env pub → x ≠ (t, c) → t < x.1) →
  ∀ c' t',
    (t', c') ∈ select_cases env pub →
    (∀ x, x ∈ select_cases env pub → t' <= x.1) →
    (t', c') = (t, c).
Proof.
  intros Hin Hfirst c' t' Hin' Hmin'.
  destruct (decide ((t', c') = (t, c))) as [|Hne]; [done |].
  specialize (Hfirst _ Hin' Hne). specialize (Hmin' _ Hin). simpl in *. lia.
Qed.

(** X7: when the task is encoded and the client has returned a future, a
    case of the wait that is ready strictly before every other case
    decides the commit: an acknowledgement that arrives first gives the
    task id, an error of the future that arrives first is returned, a
    context that ends first gives its error, and the commit has waited
    until that case was ready. *)
Theorem commit_runs_the_first_ready_case
    (env : Env) (subject : string) (task : ReportTask.t) (w : World)
    (data : string) (pub : PubAckFuture) (t : Z) (c : SelectCase) :
  json_Marshal env (set_TaskID (pipelineTaskId env) task) = Ok data →
  PublishAsync env subject data = inr pub →
  (t, c) ∈ select_cases env pub →
  (∀ x, x ∈ select_cases env pub → x ≠ (t, c) → t < x.1) →
  (commitReportTask env subject task w).1 = case_result env c
  ∧ waited (commitReportTask env subject task w).2 = waited w + t.
Proof.
  intros Hdata Hpub Hin Hfirst.
  destruct (commit_run_case env subject task w data pub Hdata Hpub)
    as (c' & t' & Hin' & Hmin' & Hres & Hwait & _).
  pose proof (select_strictly_first env pub t c Hin Hfirst c' t' Hin' Hmin') as [= -> ->].
  by split.
Qed.

(** Witness of X7: the acknowledgement arrives after 5 ns, an error of
    the future after 7 ns. *)
Lemma commit_runs_the_first_ready_case_witness :
  let env := with_PublishAsync
               (λ _ _, inr {| pub_Err := Some (7, "nats: late error"); pub_Ok := Some 5 |})
               None example_env in
  (commitReportTask env "REPORT.SINGLE" example_task World0).1 = Ok "req-1-0123456789abcdef"
  ∧ waited (commitReportTask env "REPORT.SINGLE" example_task World0).2 = waited World0 + 5.
Proof.
  intros env.
  apply (commit_runs_the_first_ready_case env "REPORT.SINGLE" example_task World0 "{}"
           {| pub_Err := Some (7, "nats: late error"); pub_Ok := Some 5 |} 5 CasePubOk).
  - reflexivity.
  - reflexivity.
  - apply list_elem_of_further, list_elem_of_here.
  - intros x Hx Hne. cbn in Hx.
    apply elem_of_cons in Hx as [-> | Hx]; [cbn; lia |].
    apply elem_of_cons in Hx as [-> | Hx]; [done |].
    apply list_elem_of_singleton in Hx as ->. cbn. unfold Second. lia.
Defined.

(** X8: when the task is encoded and the client has returned a future,
    and neither channel of the future delivers nor the context ends
    within ten seconds, the commit returns [ErrNatsTimeout], after ten
    seconds' wait exactly. *)
Theorem commit_times_out_after_ten_seconds
    (env : Env) (subject : string) (task : ReportTask.t) (w : World)
    (data : string) (pub : PubAckFuture) :
  json_Marshal env (set_TaskID (pipelineTaskId env) task) = Ok data →
  PublishAsync env subject data = inr pub →
  (∀ t msg, pub_Err pub = Some (t, msg) → 10 * Second < t) →
  (∀ t, pub_Ok pub = Some t → 10 * Second < t) →
  (∀ t e, ctx_Done env = Some (t, e) → 10 * Second < t) →
  (commitReportTask env subject task w).1 = Err ErrNatsTimeout
  ∧ waited (commitReportTask env subject task w).2 = waited w + 10 * Second.
Proof.
  intros Hdata Hpub Herr Hok Hdone.
  destruct (commit_run_case env subject task w data pub Hdata Hpub)
    as (c' & t' & Hin' & Hmin' & Hres & Hwait & _).
  assert (Hfirst : ∀ x, x ∈ select_cases env pub →
                        x ≠ (Second * 10, CaseTimeAfter) → Second * 10 < x.1).
  { intros x Hx Hne. unfold select_cases in Hx.
    repeat (apply elem_of_app in Hx as [Hx | Hx]).
    - destruct (pub_Err pub) as [[t0 msg]|]; [|by apply elem_of_nil in Hx].
      apply list_elem_of_singleton in Hx as ->. specialize (Herr t0 msg eq_refl).
      cbn. unfold Second in *. lia.
    - destruct (pub_Ok pub) as [t0|]; [|by apply elem_of_nil in Hx].
      apply list_elem_of_singleton in Hx as ->. specialize (Hok t0 eq_refl).
      cbn. unfold Second in *. lia.
    - destruct (ctx_Done env) as [[t0 e]|]; [|by apply elem_of_nil in Hx].
      apply list_elem_of_singleton in Hx as ->. specialize (Hdone t0 e eq_refl).
      cbn. unfold Second in *. lia.
    - by apply list_elem_of_singleton in Hx. }
  pose proof (select_strictly_first env pub _ _ (timer_in_select_cases env pub) Hfirst
                c' t' Hin' Hmin') as [= -> ->].
  split; [done |]. rewrite Hwait. unfold Second. lia.
Qed.

(** Witness of X8: a client that never answers and a context that never
    ends. *)
Lemma commit_times_out_after_ten_seconds_witness :
  let env := with_PublishAsync (λ _ _, inr {| pub_Err := None; pub_Ok := None |})
               None example_env in
  (commitReportTask env "REPORT.BATCH" example_task World0).1 = Err ErrNatsTimeout
  ∧ waited (commitReportTask env "REPORT.BATCH" example_task World0).2
    = waited World0 + 10 * Second.
Proof.
  intros env.
  apply (commit_times_out_after_ten_seconds env "REPORT.BATCH" example_task World0 "{}"
           {| pub_Err := None; pub_Ok := None |}); try reflexivity; intros; discriminate.
Defined.

(** ** [VerifySingularReport]: the tuples, the error, the response *)

Section VerifyMore.

Context {DropInfo : Type}
  (GetCurrentTimeRangeDropInfo : string → string → list (list string) → Result (list DropInfo))
  (ctx_JSON : list DropInfo → option error).

Local Abbreviation Verify :=
  (legacy.VerifySingularReport DropInfo GetCurrentTimeRangeDropInfo ctx_JSON).

(** Over drops of known types the selector builds the tuple of each drop
    and leaves the captured error as it is. *)
Lemma select_tuples_known (drops : list legacy.Drop) (err : option error) :
  Forall (λ drop, is_Some (konst.DropTypeMap !! legacy.DropType drop)) drops →
  legacy.select_tuples drops err = (tuple_of <$> drops, err).
Proof.
  induction 1 as [|drop drops [mapped Hdrop] _ IH]; [done |].
  cbn [legacy.select_tuples]. unfold legacy.selector, konst.index_ok.
  rewrite Hdrop. cbn. rewrite IH. unfold tuple_of, konst.index. by rewrite Hdrop.
Qed.

Lemma select_tuples_app (pre post : list legacy.Drop) (err : option error) :
  (legacy.select_tuples (pre ++ post) err).2
  = (legacy.select_tuples post (legacy.select_tuples pre err).2).2.
Proof.
  revert err. induction pre as [|drop pre IH]; intros err; [done |].
  cbn [app legacy.select_tuples].
  destruct (legacy.selector drop err) as [tuple err1].
  specialize (IH err1).
  destruct (legacy.select_tuples (pre ++ post) err1) as [tuples1 e1].
  destruct (legacy.select_tuples pre err1) as [tuples2 e2]. simpl in *.
  by rewrite IH.
Qed.

(** X9: every drop is visited, and each drop of an unknown type
    overwrites the error: the error [VerifySingularReport] returns names
    the type of the last such drop of the report, not of the first. *)
Theorem verify_reports_the_last_unknown_type
    (report : legacy.SingularReportRequest) (pre post : list legacy.Drop) (drop : legacy.Drop) :
  legacy.Drops report = pre ++ drop :: post →
  konst.DropTypeMap !! legacy.DropType drop = None →
  Forall (λ d, is_Some (konst.DropTypeMap !! legacy.DropType d)) post →
  Verify report
  = (Some (legacy.ErrInvalidDropType konst.DropTypeMapKeys (legacy.DropType drop)), []).
Proof.
  intros Hdrops Hdrop Hpost. unfold legacy.VerifySingularReport.
  pose proof (select_tuples_app pre (drop :: post) None) as Herr.
  rewrite <- Hdrops in Herr.
  destruct (legacy.select_tuples (legacy.Drops report) None) as [tuples err].
  simpl in Herr. subst err.
  cbn [legacy.select_tuples]. unfold legacy.selector at 1, konst.index_ok.
  rewrite Hdrop. cbn. rewrite (select_tuples_known post _ Hpost). reflexivity.
Qed.

(** X10: for a report whose drop types are all known, the drop infos are
    queried once, with one tuple (item id, database drop type) per drop in
    the order of the report; an error of the query is returned; a number
    of drop infos other than the number of drops is an invalid request;
    otherwise the drop infos are written as the response, whose error is
    returned. *)
Theorem verify_of_known_types (report : legacy.SingularReportRequest) :
  Forall (λ d, is_Some (konst.DropTypeMap !! legacy.DropType d)) (legacy.Drops report) →
  let tuples := tuple_of <$> legacy.Drops report in
  let query := legacy.QueryDropInfo DropInfo (legacy.Server report) (legacy.StageID report)
                 tuples in
  Verify report =
    match GetCurrentTimeRangeDropInfo (legacy.Server report) (legacy.StageID report) tuples with
    | Err err => (Some err, [query])
    | Ok infos =>
        if decide (List.length infos = List.length (legacy.Drops report))
        then (ctx_JSON infos, [query; legacy.WriteJSON DropInfo infos])
        else (Some (legacy.ErrInvalidDropInfoCount (List.length (legacy.Drops report))
                                                   (List.length infos)),
              [query])
    end.
Proof.
  intros Hknown tuples query. unfold legacy.VerifySingularReport.
  rewrite (select_tuples_known _ None Hknown). fold tuples. fold query.
  destruct (GetCurrentTimeRangeDropInfo _ _ tuples) as [infos|err]; [|done].
  case_decide as Hlen.
  - by rewrite (proj2 (Nat.eqb_eq _ _) Hlen).
  - by rewrite (proj2 (Nat.eqb_neq _ _) Hlen).
Qed.

(** X11: a response is written only for a report that passed every check:
    all its drop types are known, the query returned the drop infos
    written, and they are as many as the drops of the report. *)
Theorem verify_writes_only_checked_reports
    (report : legacy.SingularReportRequest) (body : list DropInfo) :
  legacy.WriteJSON DropInfo body ∈ (Verify report).2 →
  Forall (λ d, is_Some (konst.DropTypeMap !! legacy.DropType d)) (legacy.Drops report)
  ∧ GetCurrentTimeRangeDropInfo (legacy.Server report) (legacy.StageID report)
      (tuple_of <$> legacy.Drops report) = Ok body
  ∧ List.length body = List.length (legacy.Drops report)
  ∧ (Verify report).1 = ctx_JSON body.
Proof.
  intros Hwritten.
  destruct (select_tuples_err (legacy.Drops report) None)
    as [[Hknown _] | (d & Hd & Hnone & Herr)].
  - unfold legacy.VerifySingularReport in Hwritten |- *.
    rewrite (select_tuples_known _ None Hknown) in Hwritten |- *.
    destruct (GetCurrentTimeRangeDropInfo _ _ _) as [infos|err].
    + destruct (List.length infos =? List.length (legacy.Drops report))%nat eqn:Hlen.
      * apply Nat.eqb_eq in Hlen. simpl in Hwritten.
        apply elem_of_cons in Hwritten as [Hw | Hw]; [discriminate Hw |].
        apply list_elem_of_singleton in Hw. injection Hw as ->. by split_and!.
      * simpl in Hwritten. apply list_elem_of_singleton in Hwritten. discriminate Hwritten.
    + simpl in Hwritten. apply list_elem_of_singleton in Hwritten. discriminate Hwritten.
  - unfold legacy.VerifySingularReport in Hwritten.
    destruct (legacy.select_tuples (legacy.Drops report) None) as [tuples e].
    simpl in Herr. subst e. simpl in Hwritten. by apply elem_of_nil in Hwritten.
Qed.

End VerifyMore.

(** Witness of X9: the second and the third drop have unknown types. *)
Lemma verify_reports_the_last_unknown_type_witness :
  legacy.VerifySingularReport nat example_GetCurrentTimeRangeDropInfo example_ctx_JSON
    (legacy.mkRequest "CN" "main_01-07"
       [legacy.mkDrop "NORMAL_DROP" "30012" 1; legacy.mkDrop "FURNITURE" "furni" 1;
        legacy.mkDrop "BONUS" "30011" 2; legacy.mkDrop "EXTRA_DROP" "30011" 2])
  = (Some (legacy.ErrInvalidDropType konst.DropTypeMapKeys "BONUS"), []).
Proof.
  apply (verify_reports_the_last_unknown_type example_GetCurrentTimeRangeDropInfo
           example_ctx_JSON _
           [legacy.mkDrop "NORMAL_DROP" "30012" 1; legacy.mkDrop "FURNITURE" "furni" 1]
           [legacy.mkDrop "EXTRA_DROP" "30011" 2] (legacy.mkDrop "BONUS" "30011" 2)).
  - reflexivity.
  - reflexivity.
  - repeat constructor. vm_compute. eauto.
Defined.

(** Witness of X10: two drops of known types, two drop infos. *)
Lemma verify_of_known_types_witness :
  legacy.VerifySingularReport nat example_GetCurrentTimeRangeDropInfo example_ctx_JSON
    example_report
  = (None,
     [legacy.QueryDropInfo nat "CN" "main_01-07" [["30012"; "REGULAR"]; ["30011"; "EXTRA"]];
      legacy.WriteJSON nat [0%nat; 1%nat]]).
Proof.
  rewrite (verify_of_known_types example_GetCurrentTimeRangeDropInfo example_ctx_JSON
             example_report).
  - reflexivity.
  - repeat constructor; vm_compute; eauto.
Defined.

(** Witness of X11: the response of the same report. *)
Lemma verify_writes_only_checked_reports_witness :
  Forall (λ d, is_Some (konst.DropTypeMap !! legacy.DropType d)) (legacy.Drops example_report)
  ∧ example_GetCurrentTimeRangeDropInfo (legacy.Server example_report)
      (legacy.StageID example_report) (tuple_of <$> legacy.Drops example_report)
    = Ok [0%nat; 1%nat]
  ∧ List.length [0%nat; 1%nat] = List.length (legacy.Drops example_report)
  ∧ (legacy.VerifySingularReport nat example_GetCurrentTimeRangeDropInfo example_ctx_JSON
       example_report).1 = example_ctx_JSON [0%nat; 1%nat].
Proof.
  apply (verify_writes_only_checked_reports example_GetCurrentTimeRangeDropInfo
           example_ctx_JSON example_report [0%nat; 1%nat]).
  apply list_elem_of_further, list_elem_of_here.
Defined.

(** ** Recall: what it leaves alone *)

Section RecallMore.

Context {DB : Type} (DeleteDropReport : DB → Z → option error * DB).

Local Abbreviation RecallReport := (RecallSingularReport DB DeleteDropReport).


(** X13: a recall changes the database by one call of [DeleteDropReport]
    at most, and only for the report its hash is mapped to: the database
    is as before, or the connection did not fail, the hash is mapped to
    the decimal of a report id, and the database is the one that the
    deletion of that report leaves. *)
Theorem recall_deletes_only_the_mapped_report
    (get del : option error) (req : SingleReportRecallRequest.t) (s : Store DB) :
  db DB (RecallReport get del req s).2 = db DB s
  ∨ ∃ v reportId,
      get = None
      ∧ redis DB s !! SingleReportRecallRequest.ReportHash req = Some v
      ∧ strconv.Atoi v = Ok reportId
      ∧ db DB (RecallReport get del req s).2 = (DeleteDropReport (db DB s) reportId).2.
Proof.
  unfold RecallSingularReport, Redis_Get, StringCmd_Int.
  destruct get as [err|]; simpl.
  { left. by destruct (errors_Is err RedisNil). }
  destruct (redis DB s !! _) as [v|] eqn:Hhit; simpl; [|by left].
  destruct (strconv.Atoi v) as [reportId|err] eqn:Hid; [|by left].
  right. exists v, reportId. split_and!; [done | done | done |].
  by destruct (DeleteDropReport (db DB s) reportId) as [[err|] db'].
Qed.

End RecallMore.

(** ** The normalizer and the assembled task *)

Lemma index_in_internal_types (dropType : string) :
  is_Some (konst.DropTypeMap !! dropType) →
  konst.index konst.DropTypeMap dropType ∈ internal_types.
Proof.
  unfold konst.index, internal_types. rewrite DropTypeMap_lookup.
  repeat case_decide; cbn; rewrite ?elem_of_cons; intros [mapped Hm];
    (discriminate Hm || tauto).
Qed.

(** X14: when the merged drops all have a drop type of the vocabulary, the
    drops the normalizer puts out carry database drop types only:
    [REGULAR], [SPECIAL] or [EXTRA]. *)
Theorem normalizer_maps_into_internal_types
    (env : Env) (drops : list ArkDrop.t) (w w' : World) (out : list Drop.t) :
  Forall (λ d, is_Some (konst.DropTypeMap !! ArkDrop.DropType d))
         (MergeDropsByDropTypeAndItemID env drops) →
  pipelineMergeDropsAndMapDropTypes env drops w = (Ok out, w') →
  Forall (λ o, Drop.DropType o ∈ internal_types) out.
Proof.
  intros Hknown Hrun. unfold pipelineMergeDropsAndMapDropTypes in Hrun.
  set (merged := MergeDropsByDropTypeAndItemID env drops) in *.
  destruct (first_fatal env merged) as [Hall | (pre & d & post & err & Heq & Hpre & Hd)].
  - rewrite convertDrops_nonfatal in Hrun by done. injection Hrun as <- _.
    apply Forall_forall. intros o (d & Hin & Ho)%list_elem_of_omap.
    unfold normalized in Ho.
    destruct (GetItemByArkId env (ArkDrop.ItemID d)) as [item|]; [|done].
    injection Ho as <-. cbn. apply index_in_internal_types.
    rewrite Forall_forall in Hknown. by apply Hknown.
  - rewrite Heq, (convertDrops_fatal env pre d post err) in Hrun by done. done.
Qed.

(** Witness of X14: a regular and a special drop of item [A]. *)
Lemma normalizer_maps_into_internal_types_witness :
  Forall (λ o, Drop.DropType o ∈ internal_types)
         [Drop.mk "REGULAR" 7 3; Drop.mk "SPECIAL" 7 1].
Proof.
  apply (normalizer_maps_into_internal_types example_env
           [ArkDrop.mk "NORMAL_DROP" "A" 1; ArkDrop.mk "SPECIAL_DROP" "A" 1;
            ArkDrop.mk "NORMAL_DROP" "A" 2]
           World0 World0).
  - repeat constructor; vm_compute; eauto.
  - vm_compute. reflexivity.
Defined.

Lemma mitigation_keeps_the_rest (env : Env) (req req' : SingleReportRequest.t) (w w' : World) :
  pipelineMaaAct18d3TemporaryMitigation env req w = (Ok req', w') →
  SingleReportRequest.Server req' = SingleReportRequest.Server req
  ∧ SingleReportRequest.Source req' = SingleReportRequest.Source req
  ∧ SingleReportRequest.Version req' = SingleReportRequest.Version req
  ∧ w' = tick w.
Proof.
  rewrite mitigation_result. intros [= <- <-].
  by destruct (mitigation_applies _ _).
Qed.

(** X15: the task of a single submission.  When the account is obtained,
    no item lookup fails with an error other than not-found and the stage
    is not a gachabox, the submission hands one task to the committer:
    server, source and version as submitted, the account id, the IP, the
    second clock reading in microseconds, and one report with the stage id
    as submitted, [Times] one, the metadata as submitted and the
    normalized drops of the merged drops whose item is known -- none when
    no item is known: such a submission is not rejected. *)
Theorem single_task_assembly
    (env : Env) (req : SingleReportRequest.t) (w : World)
    (accountId : Z) (category : NullString.t) :
  (pipelineAccount env w).1 = Ok accountId →
  Forall (λ d, lookup_fatal env d = None)
         (MergeDropsByDropTypeAndItemID env (SingleReportRequest.Drops req)) →
  GetStageExtraProcessTypeByArkId env (SingleReportRequest.StageID req) = Ok category →
  NullString.Valid category
    && String.eqb (NullString.String category) (ExtraProcessTypeGachaBox env) = false →
  committed (PreprocessAndQueueSingularReport env req w).2
  = committed w ++
    [("REPORT.SINGLE",
      ReportTask.mk "" (time_Now env (S (clock_reads w)) / 1000)
        (SingleReportRequest.Server req) (SingleReportRequest.Source req)
        (SingleReportRequest.Version req)
        [Some (ReportTaskSingleReport.mk (SingleReportRequest.StageID req)
                 (omap (normalized env)
                    (MergeDropsByDropTypeAndItemID env (SingleReportRequest.Drops req)))
                 1 (SingleReportRequest.Metadata req))]
        accountId (ExtractIP env))].
Proof.
  intros Hacc Hall Hstage Hcat.
  unfold PreprocessAndQueueSingularReport, mbind, M_bind.
  pose proof (account_same_queue env w) as (Hc & _ & Hk & _).
  destruct (pipelineAccount env w) as [[acc|err] w1]; simpl in Hacc, Hc, Hk; [|done].
  injection Hacc as ->.
  unfold pipelineMergeDropsAndMapDropTypes. rewrite convertDrops_nonfatal by done.
  cbn [app]. unfold pipelineAggregateGachaboxDrops. cbn [ReportTaskSingleReport.StageID].
  rewrite Hstage, Hcat. unfold mret, M_ret.
  match goal with |- context [pipelineMaaAct18d3TemporaryMitigation env req ?w2] =>
    destruct (pipelineMaaAct18d3TemporaryMitigation env req w2) as [[req'|err] w3] eqn:Hm;
    [apply mitigation_keeps_the_rest in Hm as (-> & -> & -> & ->)
    |by rewrite mitigation_result in Hm] end.
  unfold time_Now_UnixNano. cbn beta iota zeta.
  rewrite commit_committed. cbn [committed tick add_warnings clock_reads].
  by rewrite Hc, Hk.
Qed.

(** Witness of X15: a submission whose only item is not known. *)
Lemma single_task_assembly_witness :
  committed (PreprocessAndQueueSingularReport example_env
               (SingleReportRequest.mk "CN" "client" "v1" "main_01-07"
                  [ArkDrop.mk "NORMAL_DROP" "C" 1] None) World0).2
  = committed World0 ++
    [("REPORT.SINGLE",
      ReportTask.mk "" (1654000000000000000 / 1000) "CN" "client" "v1"
        [Some (ReportTaskSingleReport.mk "main_01-07" [] 1 None)] 1 "192.0.2.1")].
Proof.
  apply (single_task_assembly example_env
           (SingleReportRequest.mk "CN" "client" "v1" "main_01-07"
              [ArkDrop.mk "NORMAL_DROP" "C" 1] None)
           World0 1 (NullString.mk "" false)).
  - reflexivity.
  - repeat constructor.
  - reflexivity.
  - reflexivity.
Defined.

(** X16: an empty batch is not rejected: when the account is obtained, a
    batch with no element runs the commit of a task with no report, and
    returns what that commit returns. *)
Theorem empty_batch_is_committed
    (env : Env) (req : BatchReportRequest.t) (w : World) (accountId : Z) :
  BatchReportRequest.BatchDrops req = [] →
  (pipelineAccount env w).1 = Ok accountId →
  PreprocessAndQueueBatchReport env req w
  = commitReportTask env "REPORT.BATCH"
      (ReportTask.mk "" 0 (BatchReportRequest.Server req) (BatchReportRequest.Source req)
         (BatchReportRequest.Version req) [] accountId (ExtractIP env))
      (pipelineAccount env w).2.
Proof.
  intros Hempty Hacc. unfold PreprocessAndQueueBatchReport, mbind, M_bind.
  destruct (pipelineAccount env w) as [[acc|err] w1]; simpl in Hacc; [|done].
  injection Hacc as ->. by rewrite Hempty.
Qed.

(** Witness of X16: the empty batch is published and returns a task id. *)
Lemma empty_batch_is_committed_witness :
  PreprocessAndQueueBatchReport example_env (BatchReportRequest.mk "CN" "client" "v1" []) World0
  = commitReportTask example_env "REPORT.BATCH"
      (ReportTask.mk "" 0 "CN" "client" "v1" [] 1 "192.0.2.1")
      (pipelineAccount example_env World0).2.
Proof.
  apply (empty_batch_is_committed example_env (BatchReportRequest.mk "CN" "client" "v1" [])
           World0 1); reflexivity.
Defined.

Example empty_batch_run :
  (PreprocessAndQueueBatchReport example_env
     (BatchReportRequest.mk "CN" "client" "v1" []) World0).1
  = Ok "req-1-0123456789abcdef".
Proof. reflexivity. Qed.

(** ** Recall: retrying *)

(** X17: a recall whose deletion failed can be retried: the error of the
    deletion is returned and the mapping is still there, whatever the
    connection to Redis does at [DEL]; a second recall of the hash calls
    the deletion of the same report again, on the database the first call
    left, and sends [DEL] for the hash when that deletion succeeds: the
    mapping is then removed when [DEL] reaches the store, and stays when
    it does not. *)
Theorem failed_recall_can_be_retried
    {DB : Type} (DeleteDropReport : DB → Z → option error * DB)
    (del del' : option error)
    (req : SingleReportRecallRequest.t) (s : Store DB)
    (v : string) (reportId : Z) (err : error) (db1 : DB) :
  redis DB s !! SingleReportRecallRequest.ReportHash req = Some v →
  strconv.Atoi v = Ok reportId →
  DeleteDropReport (db DB s) reportId = (Some err, db1) →
  RecallSingularReport DB DeleteDropReport None del req s
  = (Some err, {| redis := redis DB s; db := db1 |})
  ∧ RecallSingularReport DB DeleteDropReport None del' req
      {| redis := redis DB s; db := db1 |}
    = match DeleteDropReport db1 reportId with
      | (Some err', db2) => (Some err', {| redis := redis DB s; db := db2 |})
      | (None, db2) =>
          (None,
           {| redis := match del' with
                       | Some _ => redis DB s
                       | None => delete (SingleReportRecallRequest.ReportHash req) (redis DB s)
                       end;
              db := db2 |})
      end.
Proof.
  intros Hhit Hid Hdel.
  rewrite (recall_hit DeleteDropReport del req s v reportId Hhit Hid), Hdel.
  split; [done |].
  rewrite (recall_hit DeleteDropReport del' req {| redis := redis DB s; db := db1 |}
             v reportId Hhit Hid).
  cbn [db redis]. by destruct del'.
Qed.

(** Witness of X17: the database fails the first deletion and performs
    the second, and [DEL] reaches the store. *)
Lemma failed_recall_can_be_retried_witness :
  let recall := RecallSingularReport nat example_flaky_DeleteDropReport None None
                  (SingleReportRecallRequest.mk "hash-1") in
  recall example_flaky_store
  = (Some (ErrExternal "database is busy"),
     {| redis := redis nat example_flaky_store; db := 0%nat |})
  ∧ recall {| redis := redis nat example_flaky_store; db := 0%nat |}
    = (None, {| redis := delete "hash-1" (redis nat example_flaky_store); db := 0%nat |}).
Proof.
  intros recall.
  apply (failed_recall_can_be_retried example_flaky_DeleteDropReport None None
           (SingleReportRecallRequest.mk "hash-1") example_flaky_store
           "42" 42 (ErrExternal "database is busy") 0%nat); reflexivity.
Defined.


(** ** Batch submissions: the error returned *)

Lemma batchLoop_first_error (env : Env) (pre post : list BatchReportDrop.t)
    (elem : BatchReportDrop.t) (err : error) :
  Forall (λ e, is_Ok (element_report env e)) pre →
  element_report env elem = Err err →
  ∀ i reports w, (batchLoop env i (pre ++ elem :: post) reports w).1 = Err err.
Proof.
  intros Hpre Helem. induction Hpre as [|e pre He _ IH]; intros i reports w.
  - cbn [app batchLoop].
    destruct (element_report_run env elem w) as (msgs & Hrun).
    unfold mbind, M_bind in Hrun |- *.
    destruct (pipelineMergeDropsAndMapDropTypes env (BatchReportDrop.Drops elem) w)
      as [[drops|e1] w1].
    + destruct (pipelineAggregateGachaboxDrops env _ w1) as [[report|e2] w2].
      * injection Hrun as Hrun _. congruence.
      * injection Hrun as Hrun _. simpl. congruence.
    + injection Hrun as Hrun _. simpl. congruence.
  - cbn [app batchLoop].
    destruct (element_report_run env e w) as (msgs & Hrun).
    unfold mbind, M_bind in Hrun |- *.
    destruct (pipelineMergeDropsAndMapDropTypes env (BatchReportDrop.Drops e) w)
      as [[drops|e1] w1].
    + destruct (pipelineAggregateGachaboxDrops env _ w1) as [[report|e2] w2].
      * apply IH.
      * injection Hrun as Hrun _. rewrite <- Hrun in He. done.
    + injection Hrun as Hrun _. rewrite <- Hrun in He. done.
Qed.

(** X18: a batch returns the error of its first failing element: when the
    account is obtained, the elements before an element succeed and that
    element fails normalization or aggregation with an error, the request
    returns that error, whatever the elements after it are. *)
Theorem batch_returns_the_first_error
    (env : Env) (req : BatchReportRequest.t) (w : World)
    (pre post : list BatchReportDrop.t) (elem : BatchReportDrop.t) (err : error) :
  is_Ok (pipelineAccount env w).1 →
  BatchReportRequest.BatchDrops req = pre ++ elem :: post →
  Forall (λ e, is_Ok (element_report env e)) pre →
  element_report env elem = Err err →
  (PreprocessAndQueueBatchReport env req w).1 = Err err.
Proof.
  intros Hacc Hdrops Hpre Helem. unfold PreprocessAndQueueBatchReport, mbind, M_bind.
  destruct (pipelineAccount env w) as [[accountId|e] w1]; simpl in Hacc; [|done].
  pose proof (batchLoop_first_error env pre post elem err Hpre Helem 0%nat
                (replicate (List.length (BatchReportRequest.BatchDrops req)) None) w1)
    as Hloop.
  rewrite <- Hdrops in Hloop.
  destruct (batchLoop env 0 _ _ w1) as [[reports|e] w2]; simpl in Hloop; [done |].
  simpl. congruence.
Qed.

(** Witness of X18: the second element fails on the lookup of item [B],
    the third on the lookup of its stage. *)
Lemma batch_returns_the_first_error_witness :
  (PreprocessAndQueueBatchReport example_env
     (BatchReportRequest.mk "CN" "client" "v1"
        [BatchReportDrop.mk "main_01-07" [ArkDrop.mk "NORMAL_DROP" "A" 1] [];
         BatchReportDrop.mk "main_01-07" [ArkDrop.mk "NORMAL_DROP" "B" 1] [];
         BatchReportDrop.mk "broken" [ArkDrop.mk "NORMAL_DROP" "A" 1] []])
     World0).1
  = Err (ErrExternal "item lookup failed").
Proof.
  apply (batch_returns_the_first_error example_env _ World0
           [BatchReportDrop.mk "main_01-07" [ArkDrop.mk "NORMAL_DROP" "A" 1] []]
           [BatchReportDrop.mk "broken" [ArkDrop.mk "NORMAL_DROP" "A" 1] []]
           (BatchReportDrop.mk "main_01-07" [ArkDrop.mk "NORMAL_DROP" "B" 1] [])).
  - exact I.
  - reflexivity.
  - repeat constructor.
  - reflexivity.
Defined.
